(** * Formal model of the Form.io server bootstrap ([index.js])

    A shallow embedding of [index.js]: the module function that builds the
    express router, [router.formio.log], [router.formio.audit],
    [router.init] with its inner steps (memory-leak prevention, default
    middlewares, evaluator configuration, MongoDB connection), and the
    CORS wrapper middleware.

    Collaborators that live outside [index.js] (the hook module, the
    database update system, the isolated-VM evaluator, mongoose, the
    process) are modelled as parameters of the functions that call them,
    except where a claim depends on what they do; those are modelled from
    the specification and marked as such. *)

From Stdlib Require Import QArith String List Bool.
From stdpp Require Import base gmap strings list pretty.
Import ListNotations.
Open Scope string_scope.
Set Warnings "-register-all".

(* ------------------------------------------------------------------ *)
(** ** JavaScript values *)

(** The JS values that flow through the bootstrap code.  Numbers are
    rationals ([NaN] separately); [JRef] names a host object such as
    [router.formio.middleware.alias] or [router.formio]. *)
Inductive jsval : Type :=
| JUndef
| JNull
| JBool (b : bool)
| JNum (q : Q)
| JNaN
| JStr (s : string)
| JArr (l : list jsval)
| JObj (fields : list (string * jsval))
| JRef (name : string).

(** JavaScript truthiness ([if (x)], [!x]). *)
Definition truthy (v : jsval) : bool :=
  match v with
  | JUndef | JNull | JNaN => false
  | JBool b => b
  | JNum q => negb (Qeq_bool q 0%Q)
  | JStr s => negb (String.eqb s "")
  | JArr _ | JObj _ | JRef _ => true
  end.

(** The iteration protocol used by spread syntax [f(...v)]: arrays yield
    their elements, strings their characters; every other value is not
    iterable and the spread throws a [TypeError]. *)
Definition spread (v : jsval) : option (list jsval) :=
  match v with
  | JArr l => Some l
  | JStr s => Some (map (fun c => JStr (String c EmptyString)) (list_ascii_of_string s))
  | _ => None
  end.

(** Numbers as the JS operations below produce them: a finite double
    (its exact rational value; [-0] is [0]), an infinity, or [NaN]. *)
Inductive num : Type :=
| Fin (q : Q)
| PosInf
| NegInf
| NaN.

(** Rounding of an exact rational to an IEEE 754 double: to nearest, ties
    to even, with a 53-bit significand and least exponent -1074; a
    magnitude that rounds to [2^1024] or more becomes an infinity. *)
Definition double_round (q : Q) : num :=
  let n := Qnum q in
  let d := Zpos (Qden q) in
  let a := Z.abs n in
  if (a =? 0)%Z then Fin 0 else
  let e0 := (Z.log2 a - Z.log2 d)%Z in
  (* the binary exponent [e] of [a / d]: [2^e <= a / d < 2^(e+1)] *)
  let e := if (if 0 <=? e0 then d * 2 ^ e0 <=? a else d <=? a * 2 ^ (- e0))%Z
           then e0 else (e0 - 1)%Z in
  let p := Z.max (e - 52) (-1074) in
  (* [a / d = (num' / den') * 2^p] *)
  let num' := if (0 <=? p)%Z then a else (a * 2 ^ (- p))%Z in
  let den' := if (0 <=? p)%Z then (d * 2 ^ p)%Z else d in
  let r0 := (num' / den')%Z in
  let rem := (num' mod den')%Z in
  let r := if (den' <? 2 * rem)%Z then (r0 + 1)%Z
           else if (2 * rem <? den')%Z then r0
           else if Z.even r0 then r0 else (r0 + 1)%Z in
  if ((0 <=? p) && (2 ^ 1024 <=? r * 2 ^ p))%Z then (if (n <? 0)%Z then NegInf else PosInf)
  else
    let m := if (n <? 0)%Z then (- r)%Z else r in
    Fin (Qred (if (0 <=? p)%Z then inject_Z (m * 2 ^ p) else Qmake m (Z.to_pos (2 ^ (- p))))).

(** [StrWhiteSpaceChar] of [StringToNumber]; strings are read as
    sequences of UTF-16 code units below 256 (160 is the no-break space). *)
Definition is_str_whitespace (c : Ascii.ascii) : bool :=
  let n := Ascii.nat_of_ascii c in
  ((9 <=? n) && (n <=? 13))%nat || (n =? 32)%nat || (n =? 160)%nat.

Fixpoint drop_whitespace (l : list Ascii.ascii) : list Ascii.ascii :=
  match l with
  | c :: l' => if is_str_whitespace c then drop_whitespace l' else l
  | [] => []
  end.

Definition trim_whitespace (l : list Ascii.ascii) : list Ascii.ascii :=
  rev (drop_whitespace (rev (drop_whitespace l))).

(** Whether the character [c] is the one of the string [s]. *)
Definition is_char (c : Ascii.ascii) (s : string) : bool := String.eqb (String c EmptyString) s.

(** The value of a digit of base up to 16. *)
Definition digit_value (c : Ascii.ascii) : option Z :=
  let n := Z.of_nat (Ascii.nat_of_ascii c) in
  if ((48 <=? n) && (n <=? 57))%Z then Some (n - 48)%Z
  else if ((97 <=? n) && (n <=? 102))%Z then Some (n - 87)%Z
  else if ((65 <=? n) && (n <=? 70))%Z then Some (n - 55)%Z
  else None.

(** The longest run of digits of [base] at the head of [l], accumulated
    into [acc]: its value, its length and what follows it. *)
Fixpoint take_digits (base : Z) (l : list Ascii.ascii) (acc : Z) (count : nat)
  : Z * nat * list Ascii.ascii :=
  match l with
  | c :: l' =>
      match digit_value c with
      | Some v => if (v <? base)%Z then take_digits base l' (acc * base + v)%Z (S count)
                  else (acc, count, l)
      | None => (acc, count, l)
      end
  | [] => (acc, count, [])
  end.

(** An optional [+] or [-]: whether it was [-], and the rest. *)
Definition take_sign (l : list Ascii.ascii) : bool * list Ascii.ascii :=
  match l with
  | c :: l' =>
      if is_char c "-" then (true, l')
      else if is_char c "+" then (false, l')
      else (false, l)
  | [] => (false, [])
  end.

(** [StrDecimalLiteral]: [[+-]Infinity], or [[+-]] digits with an
    optional [.] (at least one digit on either side) and an optional
    exponent [(e|E)[+-]digits]; anything else is [NaN]. *)
Definition decimal_literal (l : list Ascii.ascii) : num :=
  let '(neg, body) := take_sign l in
  if String.eqb (string_of_list_ascii body) "Infinity" then (if neg then NegInf else PosInf)
  else
    let '(ip, ni, r1) := take_digits 10 body 0 0 in
    let '(mant, nf, r2) :=
      match r1 with
      | c :: r => if is_char c "." then take_digits 10 r ip 0 else (ip, 0%nat, r1)
      | [] => (ip, 0%nat, [])
      end in
    let expo :=
      match r2 with
      | [] => Some 0%Z
      | c :: r =>
          if is_char c "e" || is_char c "E" then
            let '(eneg, r') := take_sign r in
            let '(ev, ne, rest) := take_digits 10 r' 0 0 in
            match ne, rest with
            | O, _ => None
            | _, [] => Some (if eneg then (- ev)%Z else ev)
            | _, _ => None
            end
          else None
      end in
    match expo with
    | Some x =>
        if (ni + nf =? 0)%nat then NaN
        else
          let k := (x - Z.of_nat nf)%Z in
          let m := if neg then (- mant)%Z else mant in
          double_round (if (0 <=? k)%Z then inject_Z (m * 10 ^ k) else Qmake m (Z.to_pos (10 ^ (- k))))
    | None => NaN
    end.

(** The radix of the prefixes [0x], [0o], [0b] (either case). *)
Definition radix_of (c : Ascii.ascii) : option Z :=
  if is_char c "x" || is_char c "X" then Some 16%Z
  else if is_char c "o" || is_char c "O" then Some 8%Z
  else if is_char c "b" || is_char c "B" then Some 2%Z
  else None.

(** [StringToNumber]: white space trimmed, empty is [0], unsigned
    [0x]/[0o]/[0b] integers, or a [StrDecimalLiteral]; the value is
    rounded to a double. *)
Definition string_to_num (s : string) : num :=
  let l := trim_whitespace (list_ascii_of_string s) in
  match l with
  | [] => Fin 0
  | z :: c :: r =>
      if is_char z "0" then
        match radix_of c with
        | Some b =>
            let '(v, n, rest) := take_digits b r 0 0 in
            match n, rest with
            | O, _ => NaN
            | _, [] => double_round (inject_Z v)
            | _, _ => NaN
            end
        | None => decimal_literal l
        end
      else decimal_literal l
  | _ => decimal_literal l
  end.

(** [ToNumber].  An array converts through its string [join(',')]: [[]]
    is [0], a one-element array converts like its element's string, and
    two or more elements give a comma, hence [NaN].  Plain objects (no own
    [valueOf] or [toString]) and host objects convert to [NaN]. *)
Fixpoint to_number (v : jsval) : num :=
  match v with
  | JUndef | JNaN => NaN
  | JNull => Fin 0
  | JBool b => Fin (if b then 1 else 0)
  | JNum q => Fin q
  | JStr s => string_to_num s
  | JArr [] => Fin 0
  | JArr [x] =>
      match x with
      | JUndef | JNull => Fin 0                 (* String([undefined]) = '' *)
      | JNum q => Fin q
      | JStr s => string_to_num s
      | JArr _ => to_number x
      | JBool _ | JNaN | JObj _ | JRef _ => NaN (* 'true', 'NaN', '[object Object]' *)
      end
  | JArr _ => NaN
  | JObj _ | JRef _ => NaN
  end.

(** [x * y] on numbers. *)
Definition inf_times (pos : bool) (x : Q) : num :=
  if Qeq_bool x 0 then NaN
  else if Bool.eqb pos (Qle_bool 0 x) then PosInf else NegInf.

Definition num_mul (a b : num) : num :=
  match a, b with
  | NaN, _ | _, NaN => NaN
  | Fin x, Fin y => double_round (x * y)
  | Fin x, PosInf | PosInf, Fin x => inf_times true x
  | Fin x, NegInf | NegInf, Fin x => inf_times false x
  | PosInf, PosInf | NegInf, NegInf => PosInf
  | PosInf, NegInf | NegInf, PosInf => NegInf
  end.

(** [x < y] on numbers ([NaN] compares false). *)
Definition num_lt (a b : num) : bool :=
  match a, b with
  | Fin x, Fin y => negb (Qle_bool y x)
  | NegInf, (Fin _ | PosInf) => true
  | Fin _, PosInf => true
  | _, _ => false
  end.

(** The double nearest to the literal [0.8]. *)
Definition js_0_8 : num := double_round (8 # 10).

(* ------------------------------------------------------------------ *)
(** ** Observable effects *)

(** Exceptions the bootstrap code can raise or propagate. *)
Inductive exc : Type :=
| TypeError
| ConfigurationError
| Rejected (reason : jsval).

(** An entry added to the express router. *)
Inductive route : Type :=
| RUse (h : jsval)                      (** [router.use(h)] *)
| RUsePath (path : string) (h : jsval)  (** [router.use(path, h)] *)
| RGet (path : string) (h : jsval)      (** [router.get(path, h)] *)
| RUseCors (cfg : jsval)                (** the CORS wrapper over [cors(cfg)] *)
| RUseJsonError                         (** the malformed-JSON error handler *)
| RUseMemLeak.                          (** the memory-leak prevention middleware *)

(** Everything [index.js] does that can be observed from outside. *)
Inductive event : Type :=
| EHookCreated                               (** [router.formio.hook = require('./src/util/hook')(...)] *)
| EInvoke (name : string) (args : list jsval) (** [hook.invoke(name, ...args)] *)
| EAlter (name : string) (args : list jsval)  (** [hook.alter(name, ...args)] *)
| EUpdateCreated                             (** [router.formio.update = require('./src/db/index')(...)] *)
| EDbInitialize                              (** [await router.formio.update.initialize()]: the database connection kept in [router.formio.db] *)
| ERoute (r : route)                         (** an entry added to the router *)
| EEvalConstruct (opts : jsval) (hook : jsval) (** [new IsolateVMEvaluator(opts, hook)] *)
| EEvalRegister                              (** [registerEvaluator(evaluator)] *)
| EMongoConnect                              (** [await mongoose.connect(mongoUrl, mongoConfig)] *)
| EMongoReady                                (** models, resources and routes loaded after the connection *)
| ECors (cfg : jsval)                        (** [corsRoute(req, res, next)] with [corsRoute = cors(cfg)] *)
| EDebugLog (args : list jsval)              (** [log(...)] of the [debug] logger *)
| EConsoleLog (args : list jsval)            (** [console.log(...)] *)
| ESetFormio (field : string) (v : jsval)    (** [util.Formio[field] = v] *)
| EMemoryUsage                               (** [process.memoryUsage()] *)
| EGc                                        (** [gc()] *)
| ENext                                      (** [next()] *)
| EThrow (e : exc).                          (** an exception escaping the call *)

(* ------------------------------------------------------------------ *)
(** ** The hook system as seen by [index.js] *)

(** [router.formio.hook] as [index.js] uses it: [invoke] and [alter] take
    the extension-point name and the remaining arguments. *)
Record hook : Type := {
  invoke : string -> list jsval -> jsval;
  alter : string -> list jsval -> jsval
}.

(** The configuration object passed to the module function. *)
Record config : Type := {
  vmTimeout : jsval;
  audit : jsval;
  maxOldSpace : jsval
}.

(* ------------------------------------------------------------------ *)
(** ** [router.formio.log] and [router.formio.audit] *)

(** [router.formio.log = (event, req, ...info) => { ... }] *)
Definition formio_log (h : hook) (ev req : jsval) (info : list jsval) : list event :=
  let result := alter h "log" (ev :: req :: info) in
  EAlter "log" (ev :: req :: info) ::
  (if truthy result then [EDebugLog (ev :: info)] else []).

(** [router.formio.audit = (event, req, ...info) => { ... }] *)
Definition formio_audit (cfg : config) (h : hook) (ev req : jsval) (info : list jsval)
  : list event :=
  if truthy (audit cfg) then
    let result := alter h "audit" [JArr info; ev; req] in
    EAlter "audit" [JArr info; ev; req] ::
    (if truthy result then
       match spread result with
       | Some args => [EConsoleLog args]
       | None => [EThrow TypeError]
       end
     else [])
  else [].

(* ------------------------------------------------------------------ *)
(** ** The boot monad: a trace of events and a possible exception *)

(** The outcome of an (awaited) call: a value, or a thrown exception /
    rejected promise. *)
Inductive outcome (A : Type) : Type :=
| Ok (a : A)
| Throw (e : exc).
Arguments Ok {A} a.
Arguments Throw {A} e.

(** [router.init] threads the observable trace; an exception stops the
    rest of the async function and rejects its promise. *)
Definition M (A : Type) : Type := list event -> outcome A * list event.

Global Instance M_ret : MRet M := fun A a t => (Ok a, t).
Global Instance M_bind : MBind M := fun A B k m t =>
  match m t with
  | (Ok a, t') => k a t'
  | (Throw e, t') => (Throw e, t')
  end.

Definition emit (e : event) : M unit := fun t => (Ok tt, (t ++ [e])%list).
Definition raise {A} (e : exc) : M A := fun t => (Throw e, t).
Definition lift {A} (o : outcome A) : M A :=
  match o with Ok a => mret a | Throw e => raise e end.

(** [hook.invoke(name, ...args)] and [hook.alter(name, ...args)]. *)
Definition call_invoke (h : hook) (name : string) (args : list jsval) : M jsval :=
  emit (EInvoke name args);; mret (invoke h name args).
Definition call_alter (h : hook) (name : string) (args : list jsval) : M jsval :=
  emit (EAlter name args);; mret (alter h name args).

Definition use (r : route) : M unit := emit (ERoute r).

(** The host objects [index.js] passes around, by name. *)
Definition formio : jsval := JRef "router.formio".
Definition formio_hook : jsval := JRef "router.formio.hook".
Definition mw (name : string) : jsval := JRef ("router.formio.middleware." ++ name).
Definition auth (name : string) : jsval := JRef ("router.formio.auth." ++ name).

(** Which values are functions: the middlewares and authentication
    handlers of [router.formio] that [index.js] names, and the function
    literals of [index.js] itself (named ["index.js:..."]). *)
Definition is_function (v : jsval) : bool :=
  match v with
  | JRef n =>
      String.prefix "router.formio.middleware." n || String.prefix "router.formio.auth." n
      || String.prefix "index.js:" n
  | _ => false
  end.

(** The deep flattening of express 4's [Route] methods
    ([flatten(slice.call(arguments))]). *)
Fixpoint flatten_handles (v : jsval) : list jsval :=
  match v with
  | JArr l =>
      (fix go (l : list jsval) : list jsval :=
         match l with
         | [] => []
         | x :: l' => (flatten_handles x ++ go l')%list
         end) l
  | _ => [v]
  end.

(** [Object.prototype.toString.call(v)]. *)
Definition object_tag (v : jsval) : string :=
  match v with
  | JUndef => "[object Undefined]"
  | JNull => "[object Null]"
  | JBool _ => "[object Boolean]"
  | JNum _ | JNaN => "[object Number]"
  | JStr _ => "[object String]"
  | JArr _ => "[object Array]"
  | JObj _ | JRef _ => "[object Object]"
  end.

(** The exception express 4's [Route.prototype.get] throws for handlers
    [v]: the first flattened handle that is not a function makes it throw
    [new Error('Route.get() requires a callback function but got a ' +
    toString.call(handle))]. *)
Definition route_get_error (v : jsval) : option exc :=
  match find (fun x => negb (is_function x)) (flatten_handles v) with
  | Some bad =>
      Some (Rejected (JObj [("name", JStr "Error");
                            ("message", JStr ("Route.get() requires a callback function but got a "
                                              ++ object_tag bad))]))
  | None => None
  end.

(** [router.get(path, v)] in express 4: [this.route(path)] pushes the new
    layer on the router's stack, then [route.get(v)] checks the handlers. *)
Definition router_get (path : string) (v : jsval) : M unit :=
  use (RGet path v);;
  match route_get_error v with
  | Some e => raise e
  | None => mret tt
  end.

(* ------------------------------------------------------------------ *)
(** ** [setupMiddlewares] (index.js lines 90-165) *)

(** [if (!router.formio.hook.invoke('init', step, router.formio)) { install }] *)
Definition init_step (h : hook) (step : string) (install : M unit) : M unit :=
  r ← call_invoke h "init" [JStr step; formio];
  if truthy r then mret tt else install.

Definition setupMiddlewares (h : hook) : M unit :=
  init_step h "alias" (use (RUse (mw "alias")));;
  init_step h "params" (use (RUse (mw "params")));;
  use (RUse (JRef "router.formio.update.sanityCheck"));;
  use (RUse (JRef "bodyParser.urlencoded"));;
  use (RUse (JRef "bodyParser.json"));;
  use RUseJsonError;;
  (* const corsRoute = cors(router.formio.hook.alter('cors')); *)
  corsCfg ← call_alter h "cors" [];
  use (RUseCors corsCfg);;
  (* router.formio.auth = require('./src/authentication/index')(router); *)
  init_step h "token" (use (RUse (mw "tokenHandler")));;
  init_step h "getTempToken" (router_get "/token" (auth "tempToken"));;
  init_step h "logout" (router_get "/logout" (auth "logout"));;
  init_step h "current"
    (cu ← call_alter h "currentUser" [JArr [auth "currentUser"]];
     router_get "/current" cu);;
  init_step h "access" (router_get "/access" (mw "accessHandler"));;
  init_step h "config" (use (RUsePath "/config.json" (mw "configHandler")));;
  init_step h "perms" (use (RUse (mw "permissionHandler"))).

(** The CORS wrapper installed by [setupMiddlewares] around
    [corsRoute = cors(corsCfg)], on one request. *)
Definition cors_wrapper (corsCfg : jsval) (url : string) (headersSent : bool) : list event :=
  if String.eqb url "/" then [ENext]
  else if headersSent then [ENext]
  else [ECors corsCfg].

(** The init steps and the default each one installs when no host
    override claims it. *)
Definition init_steps : list string :=
  ["alias"; "params"; "token"; "getTempToken"; "logout"; "current"; "access"; "config"; "perms"].

Definition is_default (step : string) (r : route) : bool :=
  match r with
  | RUse (JRef n) =>
      (String.eqb step "alias" && String.eqb n "router.formio.middleware.alias")
      || (String.eqb step "params" && String.eqb n "router.formio.middleware.params")
      || (String.eqb step "token" && String.eqb n "router.formio.middleware.tokenHandler")
      || (String.eqb step "perms" && String.eqb n "router.formio.middleware.permissionHandler")
  | RGet p h =>
      if String.eqb p "/current" then String.eqb step "current"
      else match h with
           | JRef n =>
               (String.eqb step "getTempToken" && String.eqb p "/token"
                  && String.eqb n "router.formio.auth.tempToken")
               || (String.eqb step "logout" && String.eqb p "/logout"
                     && String.eqb n "router.formio.auth.logout")
               || (String.eqb step "access" && String.eqb p "/access"
                     && String.eqb n "router.formio.middleware.accessHandler")
           | _ => false
           end
  | RUsePath p (JRef n) =>
      String.eqb step "config" && String.eqb p "/config.json"
        && String.eqb n "router.formio.middleware.configHandler"
  | _ => false
  end.

(** The routes a trace installs. *)
Fixpoint routes (tr : list event) : list route :=
  match tr with
  | [] => []
  | ERoute r :: tr' => r :: routes tr'
  | _ :: tr' => routes tr'
  end.

(* ------------------------------------------------------------------ *)
(** ** [setupMemoryLeakPrevention] (index.js lines 69-88) *)

(** The value a [catch (error)] clause binds for an exception. *)
Definition exc_value (e : exc) : jsval :=
  match e with
  | TypeError => JRef "TypeError"
  | ConfigurationError => JRef "ConfigurationError"
  | Rejected v => v
  end.

(** The [try] block: its effects and the exception it raised, if any.
    [memoryUsage] is what [process.memoryUsage().heapTotal] yields (or
    throws), [gc] what [gc()] does. *)
Definition memleak_try (cfg : config) (memoryUsage : outcome Q) (gc : outcome unit)
  : list event * option exc :=
  if truthy (maxOldSpace cfg) then
    match memoryUsage with
    | Throw e => ([EMemoryUsage], Some e)
    | Ok heapTotal =>
        (* division by a power of two is exact on the doubles [heapTotal] takes *)
        let heap := (heapTotal / 1024 / 1024)%Q in
        if num_lt (num_mul (to_number (maxOldSpace cfg)) js_0_8) (Fin heap)
        then match gc with
             | Ok _ => ([EMemoryUsage; EGc], None)
             | Throw e => ([EMemoryUsage; EGc], Some e)
             end
        else ([EMemoryUsage], None)
    end
  else ([], None).

(** The middleware [setupMemoryLeakPrevention] installs, on one request. *)
Definition memleak_middleware (cfg : config) (memoryUsage : outcome Q) (gc : outcome unit)
  : list event :=
  let '(tried, caught) := memleak_try cfg memoryUsage gc in
  [ESetFormio "forms" (JObj []); ESetFormio "cache" (JObj [])]
  ++ tried
  ++ match caught with Some e => [EConsoleLog [exc_value e]] | None => [] end
  ++ [ENext].

Definition setupMemoryLeakPrevention : M unit := use RUseMemLeak.

(* ------------------------------------------------------------------ *)
(** ** Collaborators modelled from the specification *)

(** A handler registered at an extension point; [None] means it declines
    to transform the value (pass-through). *)
Record handler : Type := { transform : jsval -> list jsval -> option jsval }.

(** Modelled from the spec: the Hook Registry of [src/util/hook] (not in
    the sources), a mapping from extension-point name to the handlers in
    registration order (spec 3, 4.1). *)
Definition handlers_of (reg : gmap string (list handler)) (p : string) : list handler :=
  default [] (reg !! p).

(** Modelled from the spec: [invoke(pointName, ...args)] is [true] iff at
    least one handler is registered for [pointName]. *)
Definition registry_invoke (reg : gmap string (list handler)) (p : string) (args : list jsval)
  : jsval :=
  JBool (match handlers_of reg p with [] => false | _ => true end).

(** Modelled from the spec: [alter(pointName, value, ...args)] passes
    [value] through the handlers in registration order; with no value
    argument the value is [undefined]. *)
Definition registry_alter (reg : gmap string (list handler)) (p : string) (args : list jsval)
  : jsval :=
  let '(v, rest) := match args with [] => (JUndef, []) | v :: rest => (v, rest) end in
  fold_left (fun acc hd => match transform hd acc rest with Some v' => v' | None => acc end)
            (handlers_of reg p) v.

Definition registry_hook (reg : gmap string (list handler)) : hook :=
  {| invoke := registry_invoke reg; alter := registry_alter reg |}.

(** Property lookup [o[k]] on a plain object. *)
Definition js_get (o : jsval) (k : string) : jsval :=
  match o with
  | JObj fields =>
      match find (fun kv => String.eqb (fst kv) k) fields with
      | Some (_, v) => v
      | None => JUndef
      end
  | _ => JUndef
  end.

Definition positive_number (v : jsval) : bool :=
  match v with JNum q => negb (Qle_bool q 0) | _ => false end.

(** Modelled from the spec: the constructor of [IsolateVMEvaluator] from
    [src/vm] (not in the sources).  [timeoutMs] is required to be a
    positive number; otherwise the sandbox raises [ConfigurationError],
    fatal at boot (spec 6, 7). *)
Definition IsolateVMEvaluator_new (opts hk : jsval) : outcome jsval :=
  if positive_number (js_get opts "timeoutMs") then Ok (JRef "IsolateVMEvaluator")
  else Throw ConfigurationError.

(* ------------------------------------------------------------------ *)
(** ** [configureEvaluator], [setupMongoDBConnection] and [router.init] *)

(** How a statement that may throw completes: normally, or by throwing
    (or awaiting a rejected promise with) a value.  An [Error] is a
    [JObj] with its [name] and [message]. *)
Inductive completion : Type :=
| Normal
| Threw (v : jsval).

(** What the collaborators awaited by [router.init] do.  The routes that
    the required modules (resources, actions, export, recaptcha) add to
    the router themselves are theirs, not part of the trace. *)
Record boot_env : Type := {
  db_initialize : outcome jsval;      (** [await router.formio.update.initialize()] *)
  mongo_config_parse : outcome unit;  (** [JSON.parse(config.mongoConfig)] and the option handling (lines 168-193) *)
  mongo_connect : completion;         (** [await mongoose.connect(...)] and the loading of the models, resources and cache (lines 199-228) *)
  mongo_load : completion;            (** the actions, export, templates and swagger modules (lines 266-279) *)
  recaptcha_load : completion         (** [require('./src/middleware/recaptcha')(router)] (line 295) *)
}.

(** index.js lines 309-313. *)
Definition configureEvaluator (cfg : config) : M unit :=
  let opts := JObj [("timeoutMs", vmTimeout cfg)] in
  evaluator ← lift (IsolateVMEvaluator_new opts formio_hook);
  emit (EEvalConstruct opts formio_hook);;
  emit EEvalRegister.

(** The routes [connectToMongoDB] adds with its own function literals. *)
Definition components_route : route := RGet "/form/:formId/components" (JRef "index.js:formComponents").
Definition spec_route : route := RGet "/spec.json" (JRef "index.js:siteSpec").
Definition form_spec_route : route := RGet "/form/:formId/spec.json" (JRef "index.js:formSpec").

(** The [catch (err)] of [connectToMongoDB]:
    [util.log(err.message); throw err.message;]; reading [message] of
    [null] or [undefined] throws a [TypeError], and a value without an own
    [message] gives [undefined]. *)
Definition message_of (err : jsval) : exc :=
  match err with
  | JUndef | JNull => TypeError
  | _ => Rejected (js_get err "message")
  end.

(** [connectToMongoDB] (index.js lines 198-305): each statement of the
    [try] that can throw ends in the [catch]. *)
Definition connectToMongoDB (env : boot_env) : M unit :=
  emit EMongoConnect;;
  match mongo_connect env with
  | Threw err => raise (message_of err)
  | Normal =>
      router_get "/form/:formId/components" (JRef "index.js:formComponents");;
      match mongo_load env with
      | Threw err => raise (message_of err)
      | Normal =>
          router_get "/spec.json" (JRef "index.js:siteSpec");;
          router_get "/form/:formId/spec.json" (JRef "index.js:formSpec");;
          match recaptcha_load env with
          | Threw err => raise (message_of err)
          | Normal => emit EMongoReady
          end
      end
  end.

(** index.js lines 167-307: the computation of [mongoUrl] and
    [mongoConfig] (modelled in full by [mongo_connection_options] below)
    only matters here through [JSON.parse], which may throw outside the
    [try]; then [await connectToMongoDB()]. *)
Definition setupMongoDBConnection (env : boot_env) : M unit :=
  lift (mongo_config_parse env);;
  connectToMongoDB env.

(** [router.init = async function(hooks) { ... }] (index.js lines 68-345),
    for the hook system [h] that [require('./src/util/hook')] builds. *)
Definition router_init (cfg : config) (h : hook) (env : boot_env) : M jsval :=
  emit EHookCreated;;
  call_alter h "configFormio" [JObj [("Formio", JRef "util.Formio")]];;
  emit EUpdateCreated;;
  emit EDbInitialize;;
  db ← lift (db_initialize env);
  setupMemoryLeakPrevention;;
  setupMiddlewares h;;
  configureEvaluator cfg;;
  setupMongoDBConnection env;;
  mret formio.

(** Run [router.init] from an empty trace. *)
Definition run_init (cfg : config) (h : hook) (env : boot_env) : outcome jsval * list event :=
  router_init cfg h env [].

(* ------------------------------------------------------------------ *)
(** ** Auxiliary definitions for the properties *)

Open Scope list_scope.

(** [frames m a d]: run from any trace, [m] returns [a] and appends [d]. *)
Definition frames {A} (m : M A) (a : A) (d : list event) : Prop :=
  forall t, m t = (Ok a, t ++ d).

(** The trace [setupMiddlewares] appends, step by step, up to the
    [current] step ... *)
Definition middleware_head (h : hook) : list event :=
  (EInvoke "init" [JStr "alias"; formio]
     :: if truthy (invoke h "init" [JStr "alias"; formio]) then [] else [ERoute (RUse (mw "alias"))])
  ++ (EInvoke "init" [JStr "params"; formio]
     :: if truthy (invoke h "init" [JStr "params"; formio]) then [] else [ERoute (RUse (mw "params"))])
  ++ [ERoute (RUse (JRef "router.formio.update.sanityCheck"))]
  ++ [ERoute (RUse (JRef "bodyParser.urlencoded"))]
  ++ [ERoute (RUse (JRef "bodyParser.json"))]
  ++ [ERoute RUseJsonError]
  ++ [EAlter "cors" []]
  ++ [ERoute (RUseCors (alter h "cors" []))]
  ++ (EInvoke "init" [JStr "token"; formio]
     :: if truthy (invoke h "init" [JStr "token"; formio]) then [] else [ERoute (RUse (mw "tokenHandler"))])
  ++ (EInvoke "init" [JStr "getTempToken"; formio]
     :: if truthy (invoke h "init" [JStr "getTempToken"; formio]) then []
        else [ERoute (RGet "/token" (auth "tempToken"))])
  ++ (EInvoke "init" [JStr "logout"; formio]
     :: if truthy (invoke h "init" [JStr "logout"; formio]) then []
        else [ERoute (RGet "/logout" (auth "logout"))])
  ++ (EInvoke "init" [JStr "current"; formio]
     :: if truthy (invoke h "init" [JStr "current"; formio]) then []
        else [EAlter "currentUser" [JArr [auth "currentUser"]];
              ERoute (RGet "/current" (alter h "currentUser" [JArr [auth "currentUser"]]))]).

(** ... and after it. *)
Definition middleware_tail (h : hook) : list event :=
     (EInvoke "init" [JStr "access"; formio]
     :: if truthy (invoke h "init" [JStr "access"; formio]) then []
        else [ERoute (RGet "/access" (mw "accessHandler"))])
  ++ (EInvoke "init" [JStr "config"; formio]
     :: if truthy (invoke h "init" [JStr "config"; formio]) then []
        else [ERoute (RUsePath "/config.json" (mw "configHandler"))])
  ++ (EInvoke "init" [JStr "perms"; formio]
     :: if truthy (invoke h "init" [JStr "perms"; formio]) then []
        else [ERoute (RUse (mw "permissionHandler"))]).

(** The whole trace of [setupMiddlewares] when it completes. *)
Definition middleware_trace (h : hook) : list event := middleware_head h ++ middleware_tail h.

(** What [router.get('/current', ...)] throws in the [current] step, if
    it runs. *)
Definition current_error (h : hook) : option exc :=
  if truthy (invoke h "init" [JStr "current"; formio]) then None
  else route_get_error (alter h "currentUser" [JArr [auth "currentUser"]]).

(** The [current] step does not throw: a host claims it, or the altered
    [currentUser] handlers are all functions. *)
Definition current_route_ok (h : hook) : bool :=
  truthy (invoke h "init" [JStr "current"; formio])
  || forallb is_function (flatten_handles (alter h "currentUser" [JArr [auth "currentUser"]])).

(** The events of [router.init] before the first awaited collaborator
    can fail. *)
Definition boot_prefix : list event :=
  [EHookCreated; EAlter "configFormio" [JObj [("Formio", JRef "util.Formio")]];
   EUpdateCreated; EDbInitialize].

(** Events [setupMiddlewares] can produce. *)
Definition middleware_event (e : event) : bool :=
  match e with EInvoke _ _ | EAlter _ _ | ERoute _ => true | _ => false end.

Definition is_eval_construct (e : event) : bool :=
  match e with EEvalConstruct _ _ => true | _ => false end.
Definition is_eval_register (e : event) : bool :=
  match e with EEvalRegister => true | _ => false end.
Definition is_debug_log (e : event) : bool :=
  match e with EDebugLog _ => true | _ => false end.
Definition is_console_log (e : event) : bool :=
  match e with EConsoleLog _ => true | _ => false end.
Definition is_alter_of (name : string) (e : event) : bool :=
  match e with EAlter n _ => String.eqb n name | _ => false end.

(** Concrete inputs for the witnesses. *)
Definition cfg_ok : config := {| vmTimeout := JNum 500; audit := JBool true; maxOldSpace := JNum 2048 |}.
Definition cfg_no_timeout : config := {| vmTimeout := JUndef; audit := JBool false; maxOldSpace := JUndef |}.
Definition env_ok : boot_env :=
  {| db_initialize := Ok JNull; mongo_config_parse := Ok tt; mongo_connect := Normal;
     mongo_load := Normal; recaptcha_load := Normal |}.
Definition env_db_down : boot_env :=
  {| db_initialize := Throw (Rejected (JStr "connect ECONNREFUSED")); mongo_config_parse := Ok tt;
     mongo_connect := Normal; mongo_load := Normal; recaptcha_load := Normal |}.
(** The hook system with no handler registered. *)
Definition empty_hook : hook := registry_hook ∅.
(** A hook system whose [alter] always returns [v]. *)
Definition const_alter_hook (v : jsval) : hook :=
  {| invoke := fun _ _ => JBool false; alter := fun _ _ => v |}.

(** The full sequence of [router.init] when every collaborator succeeds. *)
Definition boot_sequence (cfg : config) (h : hook) : list event :=
  boot_prefix ++ [ERoute RUseMemLeak] ++ middleware_trace h
  ++ [EEvalConstruct (JObj [("timeoutMs", vmTimeout cfg)]) formio_hook; EEvalRegister;
      EMongoConnect; ERoute components_route; ERoute spec_route; ERoute form_spec_route;
      EMongoReady].

(** The configurations of the CORS wrappers among some routes. *)
Fixpoint cors_configs (rs : list route) : list jsval :=
  match rs with
  | [] => []
  | RUseCors c :: rs' => c :: cors_configs rs'
  | _ :: rs' => cors_configs rs'
  end.

(* ------------------------------------------------------------------ *)
(** ** Request handlers of [setupMiddlewares] and [connectToMongoDB] *)

(** What a request handler does with [res] and [next]. *)
Inductive http_effect : Type :=
| HStatusSend (code : Z) (body : jsval)  (** [res.status(code).send(body)] *)
| HJson (body : jsval)                  (** [res.json(body)] *)
| HNext (err : option jsval).           (** [next()] or [next(err)] *)

(** The error an express error handler receives: a [SyntaxError] (what
    the body parser raises on malformed JSON) with its message, or any
    other error value. *)
Inductive handler_error : Type :=
| SyntaxErr (message : string)
| OtherErr (err : jsval).

(** The malformed-JSON error handler (index.js lines 107-112):
    [(err, req, res, next) => { if (err instanceof SyntaxError) {
    res.status(400).send(err.message); } next(); }] *)
Definition json_error_handler (err : handler_error) : list http_effect :=
  match err with
  | SyntaxErr msg => [HStatusSend 400 (JStr msg); HNext None]
  | OtherErr _ => [HNext None]
  end.

Section FormComponents.

(** The library and runtime functions the components route relies on:
    lodash's [_.has(object, path)] and [_.property(path)(object)], and
    JavaScript's StringToNumber ([None] is [NaN]). *)
Variable lodash_has : jsval -> string -> bool.
Variable lodash_get : jsval -> string -> jsval.
Variable string_to_number : string -> option Q.

(** ToNumber on primitive values. *)
Definition prim_to_number (v : jsval) : option Q :=
  match v with
  | JNum q => Some q
  | JBool true => Some 1%Q
  | JBool false | JNull => Some 0%Q
  | JStr s => string_to_number s
  | _ => None
  end.

(** [Array.prototype.join(',')] and ToString on the values it meets;
    [null] and [undefined] elements are joined as the empty string.  A
    number is printed with [show_number]. *)
Fixpoint js_to_string (show_number : Q -> string) (v : jsval) : string :=
  match v with
  | JUndef => "undefined"
  | JNull => "null"
  | JBool b => if b then "true" else "false"
  | JNum q => show_number q
  | JNaN => "NaN"
  | JStr s => s
  | JArr l =>
      String.concat ","
        (map (fun x => match x with
                       | JUndef | JNull => ""
                       | _ => js_to_string show_number x
                       end) l)
  | JObj _ | JRef _ => "[object Object]"
  end.

(** Abstract equality [a == b] between two primitives. *)
Definition prim_loose_eq (a b : jsval) : bool :=
  match a, b with
  | (JUndef | JNull), (JUndef | JNull) => true
  | (JUndef | JNull), _ | _, (JUndef | JNull) => false
  | JStr s, JStr t => String.eqb s t
  | JBool x, JBool y => Bool.eqb x y
  | _, _ =>
      match prim_to_number a, prim_to_number b with
      | Some x, Some y => Qeq_bool x y
      | _, _ => false
      end
  end.

Definition is_object (v : jsval) : bool :=
  match v with JArr _ | JObj _ | JRef _ => true | _ => false end.

(** Abstract equality [a == b] as the components route uses it: the
    component's value against a value parsed from the query string.  Two
    objects are never the same reference there, so they compare
    [false]; an object against a primitive is first converted with
    ToPrimitive (arrays join, other objects print as
    ["[object Object]"]). *)
Definition js_loose_eq (show_number : Q -> string) (a b : jsval) : bool :=
  let to_prim v := if is_object v then JStr (js_to_string show_number v) else v in
  if is_object a && is_object b then false
  else match a, b with
       | (JUndef | JNull), _ | _, (JUndef | JNull) => prim_loose_eq a b
       | _, _ => prim_loose_eq (to_prim a) (to_prim b)
       end.

Variable show_number : Q -> string.

(** [_.omit(req.query, ['limit', 'skip'])], the query in key order. *)
Definition omit_paging (query : list (string * jsval)) : list (string * jsval) :=
  List.filter (fun kv => negb (String.eqb (fst kv) "limit" || String.eqb (fst kv) "skip")) query.

(** [Object.keys(req.query).length !== 0 ? _.omit(...) : null] *)
Definition components_filter (query : list (string * jsval)) : option (list (string * jsval)) :=
  match query with [] => None | _ => Some (omit_paging query) end.

Definition is_str (v : jsval) (s : string) : bool :=
  match v with JStr t => String.eqb t s | _ => false end.
Definition is_bool (v : jsval) (b : bool) : bool :=
  match v with JBool c => Bool.eqb c b | _ => false end.

(** One step of [_.reduce(filter, function(prev, value, prop) {...}, true)];
    the last line parses as
    [(prev && actualValue == value) || (value === 'true' && actualValue === true)
     || (value === 'false' && actualValue === false)]. *)
Definition filter_step (component : jsval) (prev : bool) (kv : string * jsval) : bool :=
  let '(prop, value) := kv in
  if negb (truthy value) then prev && lodash_has component prop
  else
    let actualValue := lodash_get component prop in
    (prev && js_loose_eq show_number actualValue value)
    || (is_str value "true" && is_bool actualValue true)
    || (is_str value "false" && is_bool actualValue false).

(** The predicate passed to [.filter] (index.js lines 241-255). *)
Definition component_selected (filter : option (list (string * jsval))) (component : jsval) : bool :=
  match filter with
  | None => true
  | Some fs => fold_left (filter_step component) fs true
  end.

(** What [findOne({_id: req.params.formId})] resolves to: the form with
    the values of [util.flattenComponents(form.components)] in key order,
    no form ([null]), or a rejection. *)
Inductive find_result : Type :=
| FormFound (flattened : list jsval)
| FormMissing
| FindFailed (err : jsval).

(** The [GET /form/:formId/components] handler (index.js lines 231-263). *)
Definition form_components_handler (found : find_result) (query : list (string * jsval))
  : list http_effect :=
  match found with
  | FindFailed err => [HNext (Some err)]
  | FormMissing => [HStatusSend 404 (JStr "Form not found")]
  | FormFound comps =>
      [HJson (JArr (List.filter (component_selected (components_filter query)) comps))]
  end.

End FormComponents.

(* ------------------------------------------------------------------ *)
(** ** The connection settings of [setupMongoDBConnection] *)

(** The fields of [config] that [setupMongoDBConnection] reads. *)
Record mongo_settings : Type := {
  mongo : jsval;
  mongoConfig : jsval;
  mongoSA : jsval;
  mongoCA : jsval;
  mongoSSL : jsval
}.

(** A plain object as its own enumerable properties in order. *)
Definition obj_has (fs : list (string * jsval)) (k : string) : bool :=
  existsb (fun kv => String.eqb (fst kv) k) fs.

Definition obj_get (fs : list (string * jsval)) (k : string) : jsval := js_get (JObj fs) k.

(** [o[k] = v]: overwrite an existing property, otherwise add it last. *)
Fixpoint obj_set (fs : list (string * jsval)) (k : string) (v : jsval) : list (string * jsval) :=
  match fs with
  | [] => [(k, v)]
  | (k', v') :: rest => if String.eqb k' k then (k', v) :: rest else (k', v') :: obj_set rest k v
  end.

(** Own enumerable properties, as read by object spread [{...v}]:
    an array's or a string's are its indices. *)
Definition indexed (l : list jsval) : list (string * jsval) :=
  imap (fun i x => (pretty (N.of_nat i), x)) l.

Definition own_props (v : jsval) : list (string * jsval) :=
  match v with
  | JObj fs => fs
  | JArr l => indexed l
  | JStr s => indexed (map (fun c => JStr (String c EmptyString)) (list_ascii_of_string s))
  | _ => []
  end.

(** [{...a, ...b}] for the properties of [a] and of [b]. *)
Definition obj_spread (a b : list (string * jsval)) : list (string * jsval) :=
  fold_left (fun acc kv => obj_set acc (fst kv) (snd kv)) b a.

(** JavaScript's [a || b]. *)
Definition js_or (a b : jsval) : jsval := if truthy a then a else b.

Definition is_array (v : jsval) : bool := match v with JArr _ => true | _ => false end.

Section MongoOptions.

(** [JSON.parse] and how numbers print (for [Array.prototype.join]). *)
Variable json_parse : jsval -> outcome jsval.
Variable show_number : Q -> string.

(** The object [mongoConfig] as the code starts from it.  [null] (and
    [undefined]) make [mongoConfig.hasOwnProperty] throw; on any other
    primitive [hasOwnProperty] is [false] and the assignment that follows
    throws in strict mode.  An array (JSON text ["[...]"]) is kept as its
    indexed properties. *)
Definition mongo_config_object (parsed : jsval) : outcome (list (string * jsval)) :=
  match parsed with
  | JObj fs => Ok fs
  | JArr l => Ok (indexed l)
  | JRef _ => Ok []
  | _ => Throw TypeError
  end.

(** index.js lines 168-190: the URL and the options passed to
    [mongoose.connect]. *)
Definition mongo_connection_options (ms : mongo_settings)
  : outcome (jsval * list (string * jsval)) :=
  let mongoUrl := mongo ms in
  match (if truthy (mongoConfig ms) then json_parse (mongoConfig ms) else Ok (JObj [])) with
  | Throw e => Throw e
  | Ok parsed =>
      match mongo_config_object parsed with
      | Throw e => Throw e
      | Ok c0 =>
          let c1 := if obj_has c0 "connectTimeoutMS" then c0
                    else obj_set c0 "connectTimeoutMS" (JNum 300000) in
          let c2 := if obj_has c1 "socketTimeoutMS" then c1
                    else obj_set c1 "socketTimeoutMS" (JNum 300000) in
          let mongoUrl := if is_array (mongo ms) then JStr (js_to_string show_number (mongo ms))
                          else mongoUrl in
          let c3 := if truthy (mongoSA ms) || truthy (mongoCA ms)
                    then obj_set (obj_set c2 "tls" (JBool true)) "tlsCAFile"
                           (js_or (mongoSA ms) (mongoCA ms))
                    else c2 in
          let c4 := if truthy (mongoSSL ms) then obj_spread (own_props (JObj c3)) (own_props (mongoSSL ms))
                    else c3 in
          Ok (mongoUrl, c4)
      end
  end.

End MongoOptions.

(* ------------------------------------------------------------------ *)
(** ** Concrete collaborators for the request handlers *)

(** [_.has] and [_.property] on a single-segment path of a plain object. *)
Definition lodash_has_top (c : jsval) (p : string) : bool :=
  match c with JObj fs => obj_has fs p | _ => false end.
Definition lodash_get_top (c : jsval) (p : string) : jsval := js_get c p.
(** [StringToNumber] on the strings that give a finite number. *)
Definition string_to_decimal (s : string) : option Q :=
  match string_to_num s with Fin q => Some q | _ => None end.
(** Number printing for integers. *)
Definition show_integer (q : Q) : string := pretty (Qnum q).

(** Settings with only [config.mongo] given. *)
Definition mongo_only (url : jsval) : mongo_settings :=
  {| mongo := url; mongoConfig := JUndef; mongoSA := JUndef; mongoCA := JUndef; mongoSSL := JUndef |}.


(** The test one entry of the components filter makes when its value is
    neither ["true"] nor ["false"]. *)
Definition entry_test (has : jsval -> string -> bool) (get : jsval -> string -> jsval)
    (s2n : string -> option Q) (shown : Q -> string) (c : jsval) (kv : string * jsval) : bool :=
  if truthy (snd kv) then js_loose_eq s2n shown (get c (fst kv)) (snd kv)
  else has c (fst kv).

(* ================================================================== *)
(** * Properties *)

(** ** Shape of the traces *)

Lemma frames_emit (e : event) : frames (emit e) tt [e].
Proof. intros t. reflexivity. Qed.

Lemma frames_ret {A} (a : A) : frames (mret a) a [].
Proof. intros t. cbv [mret M_ret]. now rewrite app_nil_r. Qed.

Lemma frames_bind {A B} (m : M A) (k : A -> M B) a b d1 d2 :
  frames m a d1 -> frames (k a) b d2 -> frames (m ≫= k) b (d1 ++ d2).
Proof.
  intros Hm Hk t. cbv [mbind M_bind]. rewrite Hm, Hk. now rewrite app_assoc.
Qed.

Lemma frames_call_invoke h n args : frames (call_invoke h n args) (invoke h n args) [EInvoke n args].
Proof.
  unfold call_invoke. rewrite <- (app_nil_r [EInvoke n args]).
  apply frames_bind with (a := tt); [apply frames_emit | apply frames_ret].
Qed.

Lemma frames_call_alter h n args : frames (call_alter h n args) (alter h n args) [EAlter n args].
Proof.
  unfold call_alter. rewrite <- (app_nil_r [EAlter n args]).
  apply frames_bind with (a := tt); [apply frames_emit | apply frames_ret].
Qed.

Lemma frames_init_step h step install d :
  frames install tt d ->
  frames (init_step h step install) tt
    (EInvoke "init" [JStr step; formio]
       :: if truthy (invoke h "init" [JStr step; formio]) then [] else d).
Proof.
  intros Hi. unfold init_step.
  change (EInvoke "init" [JStr step; formio] :: ?l)
    with ([EInvoke "init" [JStr step; formio]] ++ l).
  apply frames_bind with (a := invoke h "init" [JStr step; formio]).
  - apply frames_call_invoke.
  - destruct (truthy (invoke h "init" [JStr step; formio])); [apply frames_ret | exact Hi].
Qed.

Lemma frames_run_bind {A B} (m : M A) (k : A -> M B) a d t :
  frames m a d -> (m ≫= k) t = k a (t ++ d).
Proof. intros Hm. cbv [mbind M_bind]. now rewrite Hm. Qed.

Lemma frames_router_get (path : string) (v : jsval) :
  route_get_error v = None -> frames (router_get path v) tt [ERoute (RGet path v)].
Proof. intros Hv t. unfold router_get, use. cbv [mbind M_bind emit]. now rewrite Hv. Qed.

(** The [current] step of [setupMiddlewares]. *)
Lemma current_step_eq (h : hook) (t : list event) :
  init_step h "current"
    (cu ← call_alter h "currentUser" [JArr [auth "currentUser"]]; router_get "/current" cu) t
  = (match current_error h with None => Ok tt | Some e => Throw e end,
     t ++ EInvoke "init" [JStr "current"; formio]
          :: if truthy (invoke h "init" [JStr "current"; formio]) then []
             else [EAlter "currentUser" [JArr [auth "currentUser"]];
                   ERoute (RGet "/current" (alter h "currentUser" [JArr [auth "currentUser"]]))]).
Proof.
  unfold init_step, current_error, call_invoke, call_alter, router_get, use.
  cbv [mbind M_bind mret M_ret emit raise].
  destruct (truthy _); [reflexivity |].
  destruct (route_get_error _); now rewrite <- !app_assoc.
Qed.

Ltac frame_step :=
  erewrite frames_run_bind;
  [| first [ apply frames_init_step;
             first [ apply frames_emit | apply frames_router_get; reflexivity ]
           | apply frames_emit
           | apply frames_call_alter ] ].

Lemma bind_run {A B} (m : M A) (k : A -> M B) (t : list event) :
  (m ≫= k) t = match m t with (Ok a, t') => k a t' | (Throw e, t') => (Throw e, t') end.
Proof. reflexivity. Qed.

(** [setupMiddlewares] appends [middleware_trace], or stops after the
    [current] step when [router.get('/current', ...)] throws. *)
Lemma setupMiddlewares_eq (h : hook) (t : list event) :
  setupMiddlewares h t =
  match current_error h with
  | None => (Ok tt, t ++ middleware_trace h)
  | Some e => (Throw e, t ++ middleware_head h)
  end.
Proof.
  unfold setupMiddlewares, use.
  do 11 frame_step.
  rewrite bind_run, current_step_eq.
  unfold middleware_trace, middleware_head, middleware_tail.
  destruct (current_error h).
  - now rewrite <- !app_assoc.
  - cbv beta iota. do 2 frame_step.
    rewrite (frames_init_step h "perms" _ _ (frames_emit _)).
    now rewrite <- !app_assoc.
Qed.

Lemma routes_app (l1 l2 : list event) : routes (l1 ++ l2) = routes l1 ++ routes l2.
Proof. induction l1 as [| [] l1 IH]; cbn; rewrite ?IH; reflexivity. Qed.

Lemma routes_if (b : bool) (l : list event) :
  routes (if b then [] else l) = if b then [] else routes l.
Proof. now destruct b. Qed.

Lemma existsb_if {A} (f : A -> bool) (b : bool) (l : list A) :
  existsb f (if b then [] else l) = if b then false else existsb f l.
Proof. now destruct b. Qed.

Lemma if_same_false (b : bool) : (if b then false else false) = false.
Proof. now destruct b. Qed.

Ltac simpl_defaults :=
  rewrite ?routes_app; cbn [routes]; rewrite ?routes_if, ?existsb_app, ?existsb_if;
  cbn [existsb is_default String.eqb Ascii.eqb Bool.eqb andb orb];
  rewrite ?if_same_false; cbn [orb].

(** ** C2: default middlewares installed exactly when [invoke] is falsy *)

Lemma forallb_find_none {A} (f : A -> bool) (l : list A) :
  forallb f l = match find (fun x => negb (f x)) l with None => true | Some _ => false end.
Proof. induction l as [| x l IH]; [reflexivity |]. cbn. now destruct (f x). Qed.

Lemma current_route_ok_error (h : hook) :
  current_route_ok h = match current_error h with None => true | Some _ => false end.
Proof.
  unfold current_route_ok, current_error, route_get_error.
  destruct (truthy _); [reflexivity |]. cbn [orb].
  rewrite forallb_find_none. now destruct (find _ _).
Qed.

(** Claim C2, as stated, fails: when the [currentUser] alter hook returns
    [undefined] (a handler that forgets to return), express 4's
    [router.get('/current', undefined)] throws; [setupMiddlewares] stops
    there and the [access] default is not installed although [invoke]
    returned [false] for it. *)
Lemma setupMiddlewares_current_throws :
  truthy (invoke (const_alter_hook JUndef) "init" [JStr "access"; formio]) = false
  /\ existsb (is_default "access") (routes (snd (setupMiddlewares (const_alter_hook JUndef) [])))
     = false
  /\ fst (setupMiddlewares (const_alter_hook JUndef) [])
     = Throw (Rejected (JObj [("name", JStr "Error");
                              ("message", JStr "Route.get() requires a callback function but got a [object Undefined]")])).
Proof. vm_compute. auto. Qed.

(** Claim C2 (amended).  For the steps [alias], [params], [token],
    [getTempToken], [logout] and [current], the default is installed
    exactly when [hook.invoke('init', step, router.formio)] is falsy.  For
    the steps [access], [config] and [perms] this holds when the [current]
    step does not throw (a host claims it, or the altered [currentUser]
    handlers are all functions); otherwise their defaults are never
    installed. *)
Theorem setupMiddlewares_default_iff_invoke_falsy (h : hook) (step : string) :
  In step init_steps ->
  existsb (is_default step) (routes (snd (setupMiddlewares h [])))
  = negb (truthy (invoke h "init" [JStr step; formio]))
    && (if existsb (String.eqb step) ["access"; "config"; "perms"] then current_route_ok h
        else true).
Proof.
  intros Hin. rewrite setupMiddlewares_eq, current_route_ok_error.
  destruct (current_error h); cbn [snd app];
    unfold middleware_trace, middleware_head, middleware_tail;
    repeat destruct Hin as [<- | Hin]; try contradiction;
    simpl_defaults; rewrite ?andb_true_r, ?andb_false_r;
    first [reflexivity | now destruct (truthy _)].
Qed.

Lemma setupMiddlewares_default_iff_invoke_falsy_witness :
  In "access" init_steps
  /\ existsb (is_default "access") (routes (snd (setupMiddlewares empty_hook [])))
     = negb (truthy (invoke empty_hook "init" [JStr "access"; formio])) && current_route_ok empty_hook.
Proof.
  split; [cbn; tauto |].
  apply (setupMiddlewares_default_iff_invoke_falsy empty_hook "access"). cbn; tauto.
Defined.

(** ** The trace of [router.init] *)

(** [router.init], case by case on what its collaborators do. *)
Lemma run_init_eq (cfg : config) (h : hook) (env : boot_env) :
  run_init cfg h env =
  match db_initialize env with
  | Throw e => (Throw e, boot_prefix)
  | Ok _ =>
      match current_error h with
      | Some e => (Throw e, boot_prefix ++ [ERoute RUseMemLeak] ++ middleware_head h)
      | None =>
          let t1 := boot_prefix ++ [ERoute RUseMemLeak] ++ middleware_trace h in
          if positive_number (vmTimeout cfg) then
            let t2 := t1 ++ [EEvalConstruct (JObj [("timeoutMs", vmTimeout cfg)]) formio_hook;
                             EEvalRegister] in
            match mongo_config_parse env with
            | Throw e => (Throw e, t2)
            | Ok _ =>
                let t3 := t2 ++ [EMongoConnect] in
                match mongo_connect env with
                | Threw err => (Throw (message_of err), t3)
                | Normal =>
                    let t4 := t3 ++ [ERoute components_route] in
                    match mongo_load env with
                    | Threw err => (Throw (message_of err), t4)
                    | Normal =>
                        let t5 := t4 ++ [ERoute spec_route; ERoute form_spec_route] in
                        match recaptcha_load env with
                        | Threw err => (Throw (message_of err), t5)
                        | Normal => (Ok formio, t5 ++ [EMongoReady])
                        end
                    end
                end
            end
          else (Throw ConfigurationError, t1)
      end
  end.
Proof.
  unfold run_init, router_init.
  generalize (setupMiddlewares_eq h). generalize (setupMiddlewares h). intros sm Hsm.
  assert (H1 : route_get_error (JRef "index.js:formComponents") = None) by reflexivity.
  assert (H2 : route_get_error (JRef "index.js:siteSpec") = None) by reflexivity.
  assert (H3 : route_get_error (JRef "index.js:formSpec") = None) by reflexivity.
  cbv [mbind M_bind mret M_ret emit call_alter lift raise setupMemoryLeakPrevention use
       configureEvaluator setupMongoDBConnection connectToMongoDB router_get
       IsolateVMEvaluator_new].
  rewrite H1, H2, H3.
  destruct (db_initialize env); [| reflexivity].
  rewrite Hsm. unfold boot_prefix.
  destruct (current_error h); [now rewrite <- ?app_assoc |].
  cbn [js_get find fst snd String.eqb Ascii.eqb Bool.eqb andb].
  destruct (positive_number (vmTimeout cfg)); [| now rewrite <- ?app_assoc].
  destruct (mongo_config_parse env); [| now rewrite <- ?app_assoc].
  destruct (mongo_connect env); [| now rewrite <- ?app_assoc].
  destruct (mongo_load env); [| now rewrite <- ?app_assoc].
  destruct (recaptcha_load env); now rewrite <- ?app_assoc.
Qed.

Lemma middleware_trace_events (h : hook) : Forall (fun e => middleware_event e = true) (middleware_trace h).
Proof.
  unfold middleware_trace, middleware_head, middleware_tail.
  repeat (apply Forall_app; split); repeat constructor;
    destruct (truthy _); repeat constructor.
Qed.

Lemma middleware_head_events (h : hook) : Forall (fun e => middleware_event e = true) (middleware_head h).
Proof.
  pose proof (middleware_trace_events h) as Hall. unfold middleware_trace in Hall.
  apply Forall_app in Hall. tauto.
Qed.

Lemma not_in_middlewares (l : list event) (e : event) :
  Forall (fun e => middleware_event e = true) l -> middleware_event e = false -> ~ In e l.
Proof.
  intros Hall He Hin. rewrite List.Forall_forall in Hall. rewrite (Hall e Hin) in He. discriminate.
Qed.

Lemma filter_middlewares (l : list event) (f : event -> bool) :
  Forall (fun e => middleware_event e = true) l ->
  (forall e, middleware_event e = true -> f e = false) ->
  List.filter f l = [].
Proof.
  intros Hall Hf.
  induction Hall as [| x l Hx _ IH]; [reflexivity |].
  cbn. rewrite (Hf x Hx). exact IH.
Qed.

(** The events of [router.init] up to the end of [setupMiddlewares]. *)
Lemma in_boot_to_middlewares (l : list event) (x : event) :
  Forall (fun e => middleware_event e = true) l ->
  In x (boot_prefix ++ [ERoute RUseMemLeak] ++ l) ->
  middleware_event x = true \/ x = EHookCreated \/ x = EUpdateCreated \/ x = EDbInitialize.
Proof.
  intros Hall. rewrite !in_app_iff. intros [Hb | [Hm | Hw]].
  - cbn in Hb. intuition subst; auto.
  - cbn in Hm. intuition subst; auto.
  - left. rewrite List.Forall_forall in Hall. exact (Hall x Hw).
Qed.

(** ** C1: an invalid [vmTimeout] fails boot *)

(** Claim C1.  When [config.vmTimeout] is absent or not a positive number,
    [router.init] rejects and never registers an Evaluator Sandbox (nor
    constructs one). *)
Theorem router_init_rejects_invalid_vmTimeout (cfg : config) (h : hook) (env : boot_env) :
  positive_number (vmTimeout cfg) = false ->
  (exists e, fst (run_init cfg h env) = Throw e)
  /\ ~ In EEvalRegister (snd (run_init cfg h env))
  /\ (forall opts hk, ~ In (EEvalConstruct opts hk) (snd (run_init cfg h env))).
Proof.
  intros Hpos. rewrite run_init_eq.
  destruct (db_initialize env) as [db | e].
  - pose proof (middleware_head_events h) as Hhead.
    pose proof (middleware_trace_events h) as Htrace.
    destruct (current_error h) as [e |]; [| rewrite Hpos]; cbn [fst snd];
      (split; [eauto |]); split;
      [ intros Hin | intros opts hk Hin | intros Hin | intros opts hk Hin ];
      apply in_boot_to_middlewares in Hin; try assumption; intuition discriminate.
  - cbn [fst snd]. unfold boot_prefix. split; [eauto |].
    split; [cbn; intuition discriminate |].
    intros opts hk Hin. cbn in Hin. intuition discriminate.
Qed.

Lemma router_init_rejects_invalid_vmTimeout_witness :
  positive_number (vmTimeout cfg_no_timeout) = false
  /\ ~ In EEvalRegister (snd (run_init cfg_no_timeout empty_hook env_ok)).
Proof.
  split; [reflexivity |].
  apply (router_init_rejects_invalid_vmTimeout cfg_no_timeout empty_hook env_ok).
  reflexivity.
Defined.

(** ** C3: order of the boot steps *)

(** Claim C3, as stated, fails: the database connection that
    [router.formio.update.initialize()] returns (stored in
    [router.formio.db]) is obtained before the default middlewares and the
    evaluator, so not every storage connection comes after the evaluator. *)
Lemma router_init_db_before_evaluator :
  exists post,
    snd (run_init cfg_ok empty_hook env_ok)
    = [EHookCreated; EAlter "configFormio" [JObj [("Formio", JRef "util.Formio")]];
       EUpdateCreated] ++ EDbInitialize :: post
    /\ In (ERoute (RUse (mw "alias"))) post
    /\ In EEvalRegister post.
Proof.
  eexists. split; [vm_compute; reflexivity |].
  split; vm_compute; tauto.
Qed.

(** Claim C3 (amended).  The trace of every run of [router.init] is a
    prefix of: the Hook Registry created (first event), the update
    system's database initialized, the memory-leak middleware, the
    conditional default middlewares ([middleware_trace]), the evaluator
    constructed then registered, and only then the mongoose connection. *)
Theorem router_init_boot_order (cfg : config) (h : hook) (env : boot_env) :
  hd_error (snd (run_init cfg h env)) = Some EHookCreated
  /\ snd (run_init cfg h env) `prefix_of` boot_sequence cfg h.
Proof.
  rewrite run_init_eq. unfold boot_sequence, middleware_trace.
  destruct (db_initialize env);
    [destruct (current_error h);
       [| destruct (positive_number (vmTimeout cfg));
          [destruct (mongo_config_parse env);
             [destruct (mongo_connect env);
                [destruct (mongo_load env); [destruct (recaptcha_load env) |] |] |] |]] |];
    cbn [snd]; (split; [reflexivity |]);
    eexists; rewrite <- ?app_assoc; reflexivity.
Qed.

(** ** C5: one evaluator per [router.init] *)

(** Claim C5, as stated, fails: a [router.init] whose
    [update.initialize()] rejects constructs and registers no evaluator. *)
Lemma router_init_db_down_no_evaluator :
  List.filter is_eval_construct (snd (run_init cfg_ok empty_hook env_db_down)) = []
  /\ List.filter is_eval_register (snd (run_init cfg_ok empty_hook env_db_down)) = []
  /\ fst (run_init cfg_ok empty_hook env_db_down)
     = Throw (Rejected (JStr "connect ECONNREFUSED")).
Proof. vm_compute. auto. Qed.

Lemma filter_boot_to_middlewares (l : list event) (f : event -> bool) :
  Forall (fun e => middleware_event e = true) l ->
  (forall e, middleware_event e = true -> f e = false) ->
  f EHookCreated = false -> f EUpdateCreated = false -> f EDbInitialize = false ->
  List.filter f (boot_prefix ++ [ERoute RUseMemLeak] ++ l) = [].
Proof.
  intros Hl Hf H1 H2 H3. rewrite !List.filter_app, (filter_middlewares l f Hl Hf).
  cbn. rewrite H1, H2, H3, (Hf (EAlter _ _) eq_refl), (Hf (ERoute _) eq_refl). reflexivity.
Qed.

(** Claim C5 (amended).  Every run of [router.init] constructs at most one
    Evaluator Sandbox and calls [registerEvaluator] at most once; a run
    that resolves constructed exactly one, with
    [({timeoutMs: config.vmTimeout}, router.formio.hook)], and registered
    it exactly once, right after constructing it; a run that fails before
    [configureEvaluator] ([update.initialize()] rejects, or
    [setupMiddlewares] throws) constructs and registers none. *)
Theorem router_init_evaluator_once (cfg : config) (h : hook) (env : boot_env) :
  length (List.filter is_eval_construct (snd (run_init cfg h env))) <= 1
  /\ length (List.filter is_eval_register (snd (run_init cfg h env))) <= 1
  /\ (forall a, fst (run_init cfg h env) = Ok a ->
        List.filter is_eval_construct (snd (run_init cfg h env))
          = [EEvalConstruct (JObj [("timeoutMs", vmTimeout cfg)]) formio_hook]
        /\ List.filter is_eval_register (snd (run_init cfg h env)) = [EEvalRegister]
        /\ exists pre post,
             snd (run_init cfg h env)
             = pre ++ EEvalConstruct (JObj [("timeoutMs", vmTimeout cfg)]) formio_hook
                    :: EEvalRegister :: post)
  /\ ((exists e, db_initialize env = Throw e) \/ (exists e, fst (setupMiddlewares h []) = Throw e) ->
      List.filter is_eval_construct (snd (run_init cfg h env)) = []
      /\ List.filter is_eval_register (snd (run_init cfg h env)) = []).
Proof.
  pose proof (middleware_head_events h) as Hhead.
  pose proof (middleware_trace_events h) as Htrace.
  assert (Hc : forall l, Forall (fun e => middleware_event e = true) l ->
                 List.filter is_eval_construct (boot_prefix ++ [ERoute RUseMemLeak] ++ l) = [])
    by (intros l Hl; apply filter_boot_to_middlewares; try assumption; try reflexivity;
        intros [] ?; easy).
  assert (Hr : forall l, Forall (fun e => middleware_event e = true) l ->
                 List.filter is_eval_register (boot_prefix ++ [ERoute RUseMemLeak] ++ l) = [])
    by (intros l Hl; apply filter_boot_to_middlewares; try assumption; try reflexivity;
        intros [] ?; easy).
  pose proof (Hc _ Hhead) as Hc0. pose proof (Hc _ Htrace) as Hc1.
  pose proof (Hr _ Hhead) as Hr0. pose proof (Hr _ Htrace) as Hr1.
  rewrite run_init_eq, setupMiddlewares_eq. cbv zeta.
  set (t0 := boot_prefix ++ [ERoute RUseMemLeak] ++ middleware_head h) in *.
  set (t1 := boot_prefix ++ [ERoute RUseMemLeak] ++ middleware_trace h) in *.
  clearbody t0 t1.
  destruct (db_initialize env);
    [destruct (current_error h);
       [| destruct (positive_number (vmTimeout cfg));
          [destruct (mongo_config_parse env);
             [destruct (mongo_connect env);
                [destruct (mongo_load env); [destruct (recaptcha_load env) |] |] |] |]] |];
    cbn [fst snd]; rewrite ?List.filter_app, ?Hc0, ?Hc1, ?Hr0, ?Hr1; cbn;
    (split; [lia | split; [lia | split]]).
  all: first
    [ intros a' Ha';
      first [ discriminate
            | split; [reflexivity | split; [reflexivity |]];
              rewrite <- !app_assoc; eexists _, _; reflexivity ]
    | intros [[e' He'] | [e' He']]; first [discriminate | easy] ].
Qed.

Lemma router_init_evaluator_once_witness :
  fst (run_init cfg_ok empty_hook env_ok) = Ok formio
  /\ List.filter is_eval_register (snd (run_init cfg_ok empty_hook env_ok)) = [EEvalRegister].
Proof.
  split; [vm_compute; reflexivity |].
  apply (router_init_evaluator_once cfg_ok empty_hook env_ok) with (a := formio).
  vm_compute. reflexivity.
Defined.

(** ** C6: [router.formio.log] *)

(** Claim C6.  [router.formio.log(event, req, ...info)] calls
    [hook.alter('log', event, req, ...info)] and emits the debug line
    [log(event, ...info)] (the original arguments) exactly when the altered
    result is truthy. *)
Theorem formio_log_emits_iff_alter_truthy (h : hook) (ev req : jsval) (info : list jsval) :
  hd_error (formio_log h ev req info) = Some (EAlter "log" (ev :: req :: info))
  /\ List.filter is_debug_log (formio_log h ev req info)
     = if truthy (alter h "log" (ev :: req :: info)) then [EDebugLog (ev :: info)] else [].
Proof.
  unfold formio_log. split; [reflexivity |].
  destruct (truthy (alter h "log" (ev :: req :: info))); reflexivity.
Qed.

(** ** C7: identity law of [alter] *)

(** Claim C7.  With no handler registered at [p], [alter(p, v, ...args)]
    returns [v] unchanged. *)
Theorem registry_alter_identity (reg : gmap string (list handler)) (p : string)
    (v : jsval) (args : list jsval) :
  handlers_of reg p = [] -> alter (registry_hook reg) p (v :: args) = v.
Proof. intros Hnone. cbn. unfold registry_alter. rewrite Hnone. reflexivity. Qed.

Lemma registry_alter_identity_witness :
  handlers_of ∅ "cors" = [] /\ alter (registry_hook ∅) "cors" [JNum 5; JStr "x"] = JNum 5.
Proof.
  split; [reflexivity |].
  apply (registry_alter_identity ∅ "cors" (JNum 5) [JStr "x"]). reflexivity.
Defined.

(** ** C8: [router.formio.audit] *)

(** Claim C8, as stated, fails: with [config.audit] set and an [audit]
    hook returning [true] (truthy but not iterable), [console.log(...result)]
    throws a [TypeError] and nothing is printed. *)
Lemma formio_audit_truthy_not_iterable :
  truthy (alter (const_alter_hook (JBool true)) "audit" [JArr [JStr "x"]; JStr "login"; JNull]) = true
  /\ formio_audit cfg_ok (const_alter_hook (JBool true)) (JStr "login") JNull [JStr "x"]
     = [EAlter "audit" [JArr [JStr "x"]; JStr "login"; JNull]; EThrow TypeError].
Proof. split; reflexivity. Qed.

(** Claim C8 (amended).  [audit] calls [console.log] at most once.  With
    [config.audit] falsy, it does nothing and never calls the hook.  With
    it truthy, it first calls [hook.alter('audit', info, event, req)];
    [console.log] is called (once) exactly when the result is truthy and
    iterable, with the result's elements; a truthy non-iterable result
    makes [audit] throw a [TypeError]. *)
Theorem formio_audit_cases (cfg : config) (h : hook) (ev req : jsval) (info : list jsval) :
  length (List.filter is_console_log (formio_audit cfg h ev req info)) <= 1
  /\ (truthy (audit cfg) = false -> formio_audit cfg h ev req info = [])
  /\ (truthy (audit cfg) = true ->
      hd_error (formio_audit cfg h ev req info) = Some (EAlter "audit" [JArr info; ev; req])
      /\ (forall args,
            List.filter is_console_log (formio_audit cfg h ev req info) = [EConsoleLog args]
            <-> truthy (alter h "audit" [JArr info; ev; req]) = true
                /\ spread (alter h "audit" [JArr info; ev; req]) = Some args)
      /\ (In (EThrow TypeError) (formio_audit cfg h ev req info)
          <-> truthy (alter h "audit" [JArr info; ev; req]) = true
              /\ spread (alter h "audit" [JArr info; ev; req]) = None)).
Proof.
  unfold formio_audit.
  destruct (truthy (audit cfg)); [| cbn; split; [lia | split; [reflexivity | discriminate]]].
  destruct (truthy (alter h "audit" [JArr info; ev; req])) eqn:Et;
    [destruct (spread (alter h "audit" [JArr info; ev; req])) eqn:Es |];
    cbn; (split; [lia | split; [discriminate | intros _]]);
    (split; [reflexivity | split; [intros args |]]); split;
    intuition (try congruence).
Qed.

Lemma formio_audit_cases_witness :
  truthy (audit cfg_ok) = true
  /\ List.filter is_console_log (formio_audit cfg_ok empty_hook (JStr "login") JNull [JStr "x"])
     = [EConsoleLog [JStr "x"]].
Proof.
  split; [reflexivity |].
  apply (formio_audit_cases cfg_ok empty_hook (JStr "login") JNull [JStr "x"]);
    [reflexivity | split; reflexivity].
Defined.

(** ** C9: the memory-leak prevention middleware *)

Lemma memleak_try_events (cfg : config) (memoryUsage : outcome Q) (gc : outcome unit) :
  Forall (fun e => e = EMemoryUsage \/ e = EGc) (fst (memleak_try cfg memoryUsage gc)).
Proof.
  unfold memleak_try.
  destruct (truthy (maxOldSpace cfg)); [| constructor].
  destruct memoryUsage as [heapTotal | e]; cbv zeta;
    [destruct (num_lt _ _); [destruct gc |] |]; cbn [fst];
    repeat first [apply List.Forall_nil | apply List.Forall_cons; [auto |]].
Qed.

(** Claim C9.  On every request the middleware first sets
    [util.Formio.forms] and [util.Formio.cache] to fresh empty objects,
    and ends by calling [next()] exactly once, whatever reading the heap
    size or [gc()] does; an exception they raise is caught and logged
    before [next()]. *)
Theorem memleak_middleware_resets_then_next_once (cfg : config) (memoryUsage : outcome Q)
    (gc : outcome unit) :
  exists mid,
    memleak_middleware cfg memoryUsage gc
      = [ESetFormio "forms" (JObj []); ESetFormio "cache" (JObj [])] ++ mid ++ [ENext]
    /\ ~ In ENext mid
    /\ (forall x, ~ In (EThrow x) mid)
    /\ (forall e, snd (memleak_try cfg memoryUsage gc) = Some e ->
                  In (EConsoleLog [exc_value e]) mid).
Proof.
  pose proof (memleak_try_events cfg memoryUsage gc) as Hev.
  unfold memleak_middleware.
  destruct (memleak_try cfg memoryUsage gc) as [tried caught]. cbn [fst snd] in *.
  rewrite List.Forall_forall in Hev.
  exists (tried ++ match caught with Some e => [EConsoleLog [exc_value e]] | None => [] end).
  split; [now rewrite <- app_assoc |].
  split; [| split].
  - rewrite in_app_iff. intros [Hin | Hin].
    + destruct (Hev _ Hin); discriminate.
    + destruct caught; cbn in Hin; intuition discriminate.
  - intros x. rewrite in_app_iff. intros [Hin | Hin].
    + destruct (Hev _ Hin); discriminate.
    + destruct caught; cbn in Hin; intuition discriminate.
  - intros e ->. apply in_or_app. right. now left.
Qed.

Lemma memleak_middleware_resets_then_next_once_witness :
  snd (memleak_try cfg_ok (Throw (Rejected (JStr "EPERM"))) (Ok tt))
    = Some (Rejected (JStr "EPERM"))
  /\ exists mid,
       memleak_middleware cfg_ok (Throw (Rejected (JStr "EPERM"))) (Ok tt)
         = [ESetFormio "forms" (JObj []); ESetFormio "cache" (JObj [])] ++ mid ++ [ENext]
       /\ In (EConsoleLog [JStr "EPERM"]) mid.
Proof.
  split; [reflexivity |].
  destruct (memleak_middleware_resets_then_next_once cfg_ok (Throw (Rejected (JStr "EPERM"))) (Ok tt))
    as (mid & Heq & _ & _ & Hlog).
  exists mid. split; [exact Heq |].
  apply (Hlog (Rejected (JStr "EPERM"))). reflexivity.
Defined.

(** ** C10: the CORS wrapper *)

Lemma cors_configs_app (r1 r2 : list route) :
  cors_configs (r1 ++ r2) = cors_configs r1 ++ cors_configs r2.
Proof. induction r1 as [| [] r1 IH]; cbn; rewrite ?IH; reflexivity. Qed.

Lemma cors_configs_if (b : bool) (rs : list route) :
  cors_configs (if b then [] else rs) = if b then [] else cors_configs rs.
Proof. now destruct b. Qed.

Lemma if_same_nil {A} (b : bool) : (if b then [] else []) = @nil A.
Proof. now destruct b. Qed.

Lemma fold_declining (l : list handler) (rest : list jsval) (v : jsval) :
  (forall hd, In hd l -> forall x args, transform hd x args = None) ->
  fold_left (fun acc hd => match transform hd acc rest with Some v' => v' | None => acc end) l v = v.
Proof.
  revert v. induction l as [| hd l IH]; intros v Hdecl; [reflexivity |].
  cbn. rewrite (Hdecl hd (or_introl eq_refl)).
  apply IH. intros hd' Hin. exact (Hdecl hd' (or_intror Hin)).
Qed.

(** Claim C10.  [setupMiddlewares] installs one CORS wrapper, over
    [cors(hook.alter('cors'))]; the wrapper calls [next()] directly when
    [req.url === '/'] or the headers were already sent, and hands every
    other request to the [cors] middleware with that configuration; with
    no handler transforming it, [hook.alter('cors')] is [undefined]. *)
Theorem cors_wrapper_bypass (h : hook) (url : string) (headersSent : bool) :
  cors_configs (routes (snd (setupMiddlewares h []))) = [alter h "cors" []]
  /\ (cors_wrapper (alter h "cors" []) url headersSent = [ENext]
      <-> url = "/" \/ headersSent = true)
  /\ (url <> "/" -> headersSent = false ->
      cors_wrapper (alter h "cors" []) url headersSent = [ECors (alter h "cors" [])])
  /\ (forall reg : gmap string (list handler),
        (forall hd, In hd (handlers_of reg "cors") -> forall x args, transform hd x args = None) ->
        alter (registry_hook reg) "cors" [] = JUndef).
Proof.
  split; [| split; [| split]].
  - rewrite setupMiddlewares_eq.
    destruct (current_error h); cbn [snd app];
      unfold middleware_trace, middleware_head, middleware_tail;
      rewrite !routes_app; cbn [routes]; rewrite !routes_if, !cors_configs_app;
      cbn [cors_configs]; rewrite !cors_configs_if; cbn [cors_configs];
      rewrite !if_same_nil; reflexivity.
  - unfold cors_wrapper. destruct (String.eqb_spec url "/") as [-> | Hne].
    + intuition.
    + destruct headersSent; intuition discriminate.
  - intros Hne Hhs. unfold cors_wrapper. rewrite Hhs.
    destruct (String.eqb_spec url "/"); [contradiction | reflexivity].
  - intros reg Hdecl. cbn. unfold registry_alter. now apply fold_declining.
Qed.

Lemma cors_wrapper_bypass_witness :
  cors_wrapper (alter empty_hook "cors" []) "/form" false = [ECors JUndef]
  /\ alter (registry_hook ∅) "cors" [] = JUndef.
Proof.
  destruct (cors_wrapper_bypass empty_hook "/form" false) as (_ & _ & Hcors & Hundef).
  split.
  - apply Hcors; [discriminate | reflexivity].
  - apply Hundef. intros hd Hin. destruct Hin.
Defined.

(* ------------------------------------------------------------------ *)
(** ** The malformed-JSON error handler *)

(** [json_error_handler] (index.js lines 107-112) ends every error with
    one [next()] without argument, so the error is never passed on; a
    response is sent before it exactly for a [SyntaxError], a 400 with
    the error's message. *)
Theorem json_error_handler_swallows (err : handler_error) :
  exists pre,
    json_error_handler err = pre ++ [HNext None]
    /\ (forall x, ~ In (HNext x) pre)
    /\ (forall x, ~ In (HNext (Some x)) (json_error_handler err))
    /\ ((exists code body, In (HStatusSend code body) pre) <-> exists msg, err = SyntaxErr msg)
    /\ (forall msg, err = SyntaxErr msg -> pre = [HStatusSend 400 (JStr msg)]).
Proof.
  destruct err as [msg | e].
  - exists [HStatusSend 400 (JStr msg)]. cbn.
    split; [reflexivity |]. split; [intros x [H | []]; discriminate |].
    split; [intros x [H | [H | []]]; discriminate |].
    split; [split; eauto |]. intros m [= ->]. reflexivity.
  - exists []. cbn. split; [reflexivity |]. split; [intros x [] |].
    split; [intros x [H | []]; discriminate |].
    split; [split; [intros (? & ? & []) | intros (? & [=])] |]. intros m [=].
Qed.

(* ------------------------------------------------------------------ *)
(** ** The [GET /form/:formId/components] handler *)

Lemma filter_true_id {A} (f : A -> bool) (l : list A) :
  (forall x, In x l -> f x = true) -> List.filter f l = l.
Proof.
  induction l as [| x l IH]; intros Hf; [reflexivity |].
  cbn. rewrite (Hf x (or_introl eq_refl)). f_equal. apply IH. intros y Hy. apply Hf. now right.
Qed.

Lemma filter_false_nil {A} (f : A -> bool) (l : list A) :
  (forall x, In x l -> f x = false) -> List.filter f l = [].
Proof.
  induction l as [| x l IH]; intros Hf; [reflexivity |].
  cbn. rewrite (Hf x (or_introl eq_refl)). apply IH. intros y Hy. apply Hf. now right.
Qed.

Lemma list_filter_sublist {A} (f : A -> bool) (l : list A) : List.filter f l ⊆+ l.
Proof.
  induction l as [| x l IH]; cbn; [constructor |].
  destruct (f x); now constructor.
Qed.

Lemma fold_step_plain has get s2n shown (c : jsval) (fs : list (string * jsval)) (prev : bool) :
  (forall kv, In kv fs -> is_str (snd kv) "true" = false /\ is_str (snd kv) "false" = false) ->
  fold_left (filter_step has get s2n shown c) fs prev
  = prev && forallb (entry_test has get s2n shown c) fs.
Proof.
  revert prev. induction fs as [| [p v] fs IH]; intros prev Hfs; cbn; [now rewrite andb_true_r |].
  destruct (Hfs (p, v) (or_introl eq_refl)) as [Ht Hf]. cbn in Ht, Hf.
  rewrite IH by (intros kv Hkv; apply Hfs; now right).
  change (entry_test has get s2n shown c (p, v))
    with (if truthy v then js_loose_eq s2n shown (get c p) v else has c p).
  unfold filter_step. rewrite Ht, Hf.
  destruct (truthy v); cbn [negb andb orb]; rewrite ?orb_false_r; symmetry; apply andb_assoc.
Qed.

Lemma in_omit_paging (query : list (string * jsval)) (p : string) (v : jsval) :
  In (p, v) (omit_paging query) <-> In (p, v) query /\ p <> "limit" /\ p <> "skip".
Proof.
  unfold omit_paging. rewrite filter_In. cbn [fst].
  destruct (String.eqb_spec p "limit"), (String.eqb_spec p "skip"); cbn;
    split; [intros [H1 H2] | intros (H1 & H2 & H3) | intros [H1 H2] | intros (H1 & H2 & H3)
           | intros [H1 H2] | intros (H1 & H2 & H3) | intros [H1 H2] | intros (H1 & H2 & H3)];
    repeat split; auto; congruence.
Qed.


(** The components route returns every flattened component, in order,
    when the query string is empty or carries only [limit] and [skip]:
    these two never filter (index.js lines 239-255). *)
Theorem form_components_paging_only has get s2n shown (comps : list jsval)
    (query : list (string * jsval)) :
  (forall kv, In kv query -> fst kv = "limit" \/ fst kv = "skip") ->
  form_components_handler has get s2n shown (FormFound comps) query = [HJson (JArr comps)].
Proof.
  intros Hq. cbn. do 3 f_equal. apply filter_true_id. intros c _.
  unfold components_filter. destruct query as [| kv0 q0]; [reflexivity |].
  cbn [component_selected]. unfold omit_paging.
  rewrite (filter_false_nil _ (kv0 :: q0)); [reflexivity |].
  intros kv Hin. destruct (Hq kv Hin) as [-> | ->]; reflexivity.
Qed.

Lemma form_components_paging_only_witness :
  form_components_handler lodash_has_top lodash_get_top string_to_decimal show_integer
    (FormFound [JObj [("key", JStr "a")]; JObj [("key", JStr "b")]])
    [("limit", JStr "10"); ("skip", JStr "20")]
  = [HJson (JArr [JObj [("key", JStr "a")]; JObj [("key", JStr "b")]])].
Proof.
  apply form_components_paging_only. intros kv [<- | [<- | []]]; cbn; auto.
Defined.

(** The components route answers each request with exactly one action:
    [next(err)] exactly when the form lookup rejects (with that error),
    a 404 "Form not found" exactly when there is no form, and otherwise a
    JSON array of some of the flattened components, in their order. *)
Theorem form_components_handler_one_response has get s2n shown (found : find_result)
    (query : list (string * jsval)) :
  exists eff,
    form_components_handler has get s2n shown found query = [eff]
    /\ (forall err, eff = HNext (Some err) <-> found = FindFailed err)
    /\ (eff = HStatusSend 404 (JStr "Form not found") <-> found = FormMissing)
    /\ (forall body, eff = HJson body ->
          exists comps sel, found = FormFound comps /\ body = JArr sel /\ sel ⊆+ comps).
Proof.
  destruct found as [comps | | err]; cbn; eexists; (split; [reflexivity |]).
  - split; [intros err; split; discriminate |].
    split; [split; discriminate |].
    intros body [= <-]. do 2 eexists. split; [reflexivity |]. split; [reflexivity |].
    apply list_filter_sublist.
  - split; [intros err; split; discriminate |].
    split; [tauto |]. intros body [=].
  - split; [intros e; split; congruence |].
    split; [split; discriminate |]. intros body [=].
Qed.

(** When no query value is the string ["true"] or ["false"], a component
    is kept exactly when every entry other than [limit] and [skip]
    matches: a falsy value asks [_.has(component, prop)], any other value
    asks [_.property(prop)(component) == value]. *)
Theorem component_selected_conjunction has get s2n shown (query : list (string * jsval))
    (c : jsval) :
  (forall kv, In kv query -> is_str (snd kv) "true" = false /\ is_str (snd kv) "false" = false) ->
  component_selected has get s2n shown (components_filter query) c = true
  <-> (forall p v, In (p, v) query -> p <> "limit" -> p <> "skip" ->
         if truthy v then js_loose_eq s2n shown (get c p) v = true else has c p = true).
Proof.
  intros Hq. unfold components_filter. destruct query as [| kv0 q0] eqn:Eq.
  - cbn. split; [intros _ p v [] | reflexivity].
  - rewrite <- Eq. cbn [component_selected].
    rewrite fold_step_plain.
    2: { intros [p v] Hin. apply in_omit_paging in Hin. apply (Hq (p, v)). subst. tauto. }
    cbn [andb]. rewrite forallb_forall. split.
    + intros Hall p v Hin Hl Hs.
      pose proof (Hall (p, v) (proj2 (in_omit_paging _ p v) (conj Hin (conj Hl Hs)))) as H.
      unfold entry_test in H. cbn [fst snd] in H. destruct (truthy v); exact H.
    + intros Hall [p v] Hin. apply in_omit_paging in Hin as (Hin & Hl & Hs).
      specialize (Hall p v Hin Hl Hs).
      unfold entry_test. cbn [fst snd]. destruct (truthy v); exact Hall.
Qed.

Lemma component_selected_conjunction_witness :
  component_selected lodash_has_top lodash_get_top string_to_decimal show_integer
    (components_filter [("type", JStr "number"); ("validate", JStr ""); ("limit", JStr "5")])
    (JObj [("type", JStr "number"); ("validate", JObj [])]) = true
  <-> (forall p v, In (p, v) [("type", JStr "number"); ("validate", JStr ""); ("limit", JStr "5")] ->
         p <> "limit" -> p <> "skip" ->
         if truthy v
         then js_loose_eq string_to_decimal show_integer
                (lodash_get_top (JObj [("type", JStr "number"); ("validate", JObj [])]) p) v = true
         else lodash_has_top (JObj [("type", JStr "number"); ("validate", JObj [])]) p = true).
Proof.
  apply component_selected_conjunction.
  intros kv [<- | [<- | [<- | []]]]; split; reflexivity.
Defined.

(** Operator precedence in the reducer: a last entry [prop=true] keeps
    every component whose [prop] is the boolean [true], whatever the
    earlier entries gave. *)
Theorem component_selected_trailing_true has get s2n shown (query : list (string * jsval))
    (p : string) (c : jsval) :
  p <> "limit" -> p <> "skip" -> get c p = JBool true ->
  component_selected has get s2n shown (components_filter (query ++ [(p, JStr "true")])) c = true.
Proof.
  intros Hl Hs Hget. unfold components_filter.
  destruct (query ++ [(p, JStr "true")]) eqn:E; [destruct query; discriminate |].
  rewrite <- E. cbn [component_selected]. unfold omit_paging. rewrite List.filter_app.
  cbn [List.filter fst]. apply String.eqb_neq in Hl, Hs. rewrite Hl, Hs. cbn [orb negb].
  rewrite fold_left_app. cbn [fold_left]. unfold filter_step. rewrite Hget. cbn.
  now rewrite orb_true_r.
Qed.

Lemma component_selected_trailing_true_witness :
  component_selected lodash_has_top lodash_get_top string_to_decimal show_integer
    (components_filter [("type", JStr "number")])
    (JObj [("type", JStr "textfield"); ("disabled", JBool true)]) = false
  /\ component_selected lodash_has_top lodash_get_top string_to_decimal show_integer
    (components_filter ([("type", JStr "number")] ++ [("disabled", JStr "true")]))
    (JObj [("type", JStr "textfield"); ("disabled", JBool true)]) = true.
Proof.
  split; [reflexivity |].
  apply component_selected_trailing_true; [discriminate | discriminate | reflexivity].
Defined.

(* ------------------------------------------------------------------ *)
(** ** More of the memory-leak middleware *)

(** With [config.maxOldSpace] falsy the middleware only resets the two
    caches and calls [next()]: it never reads the heap size nor calls
    [gc()], so neither can fail. *)
Theorem memleak_middleware_disabled (cfg : config) (memoryUsage : outcome Q) (gc : outcome unit) :
  truthy (maxOldSpace cfg) = false ->
  memleak_middleware cfg memoryUsage gc
  = [ESetFormio "forms" (JObj []); ESetFormio "cache" (JObj []); ENext].
Proof. intros H. unfold memleak_middleware, memleak_try. now rewrite H. Qed.

Lemma memleak_middleware_disabled_witness :
  memleak_middleware cfg_no_timeout (Throw (Rejected (JStr "EPERM"))) (Throw TypeError)
  = [ESetFormio "forms" (JObj []); ESetFormio "cache" (JObj []); ENext].
Proof. apply memleak_middleware_disabled. reflexivity. Defined.

Lemma js_0_8_value : js_0_8 = Fin (3602879701896397 # 4503599627370496).
Proof. vm_compute. reflexivity. Qed.

Lemma memleak_gc_iff_lt (cfg : config) (heapTotal : Q) (gc : outcome unit) :
  truthy (maxOldSpace cfg) = true ->
  (In EGc (memleak_middleware cfg (Ok heapTotal) gc)
   <-> num_lt (num_mul (to_number (maxOldSpace cfg)) js_0_8) (Fin (heapTotal / 1024 / 1024))
       = true).
Proof.
  intros H. unfold memleak_middleware, memleak_try. rewrite H. cbv zeta.
  destruct (num_lt _ _).
  - split; [reflexivity | intros _]. destruct gc; cbn; auto 10.
  - split; [cbn; intuition discriminate | discriminate].
Qed.

(** With [config.maxOldSpace] truthy and the heap size read, [gc()] is
    called exactly when [maxOldSpace * 0.8] (JS [ToNumber] of the
    setting, times the double nearest 0.8, rounded to a double) is a
    finite number below the heap in MiB, or is [-Infinity].  A setting
    that converts to [NaN] (such as ['4g']) or to [+Infinity] never
    triggers it; one that converts to [-Infinity] always does. *)
Theorem memleak_gc_iff_over_threshold (cfg : config) (heapTotal : Q) (gc : outcome unit) :
  truthy (maxOldSpace cfg) = true ->
  (In EGc (memleak_middleware cfg (Ok heapTotal) gc)
   <-> (exists p, num_mul (to_number (maxOldSpace cfg)) js_0_8 = Fin p
                  /\ (p < heapTotal / 1024 / 1024)%Q)
       \/ num_mul (to_number (maxOldSpace cfg)) js_0_8 = NegInf)
  /\ (to_number (maxOldSpace cfg) = NaN \/ to_number (maxOldSpace cfg) = PosInf ->
      ~ In EGc (memleak_middleware cfg (Ok heapTotal) gc))
  /\ (to_number (maxOldSpace cfg) = NegInf -> In EGc (memleak_middleware cfg (Ok heapTotal) gc)).
Proof.
  intros H. rewrite (memleak_gc_iff_lt cfg heapTotal gc H).
  split; [| split].
  - destruct (num_mul (to_number (maxOldSpace cfg)) js_0_8) as [p | | |]; cbn [num_lt].
    + destruct (Qle_bool (heapTotal / 1024 / 1024) p) eqn:Hle; cbn [negb].
      * apply Qle_bool_iff in Hle. split; [discriminate |].
        intros [(p' & [= <-] & Hlt) | [=]]. exfalso. exact (Qlt_not_le _ _ Hlt Hle).
      * split; [| reflexivity]. intros _. left. exists p. split; [reflexivity |].
        apply Qnot_le_lt. intros Hle'. apply Qle_bool_iff in Hle'. congruence.
    + split; [discriminate | intros [(p' & [=] & _) | [=]]].
    + split; [intros _; now right | reflexivity].
    + split; [discriminate | intros [(p' & [=] & _) | [=]]].
  - intros [E | E]; rewrite E, js_0_8_value; vm_compute; discriminate.
  - intros E. rewrite E, js_0_8_value. vm_compute. reflexivity.
Qed.

Lemma memleak_gc_iff_over_threshold_witness :
  In EGc (memleak_middleware {| vmTimeout := JNum 500; audit := JBool false; maxOldSpace := JStr "1e3" |}
                             (Ok (2000 * 1024 * 1024)%Q) (Ok tt))
  /\ ~ In EGc (memleak_middleware {| vmTimeout := JNum 500; audit := JBool false;
                                      maxOldSpace := JStr "4g" |} (Ok (2000 * 1024 * 1024)%Q) (Ok tt)).
Proof.
  split.
  - destruct (memleak_gc_iff_over_threshold
                {| vmTimeout := JNum 500; audit := JBool false; maxOldSpace := JStr "1e3" |}
                (2000 * 1024 * 1024)%Q (Ok tt) eq_refl) as [Hiff _].
    apply Hiff. left. exists 800%Q. split; vm_compute; reflexivity.
  - destruct (memleak_gc_iff_over_threshold
                {| vmTimeout := JNum 500; audit := JBool false; maxOldSpace := JStr "4g" |}
                (2000 * 1024 * 1024)%Q (Ok tt) eq_refl) as [_ [Hnan _]].
    apply Hnan. left. vm_compute. reflexivity.
Defined.

(** Examples of [ToNumber] on spellings of [maxOldSpace]. *)
Example to_number_spellings :
  to_number (JStr "1e3") = Fin 1000 /\ to_number (JStr "1.5") = Fin (3 # 2)
  /\ to_number (JStr " 8") = Fin 8 /\ to_number (JStr "0x10") = Fin 16
  /\ to_number (JArr [JNum 5]) = Fin 5 /\ to_number (JStr "4g") = NaN
  /\ to_number (JStr "") = Fin 0 /\ to_number (JArr [JNum 1; JNum 2]) = NaN.
Proof. vm_compute. repeat split. Qed.

(* ------------------------------------------------------------------ *)
(** ** More of [setupMiddlewares] *)

Lemma forall_if_nil {A} (P : A -> Prop) (b : bool) (l : list A) :
  List.Forall P l -> List.Forall P (if b then [] else l).
Proof. destruct b; auto. Qed.

(** Split a hypothesis of membership in a list built from [++], [if]
    and literals into its cases. *)
Ltac split_in H :=
  repeat match goal with
         | H : _ \/ _ |- _ => destruct H as [H | H]
         | H : _ /\ _ |- _ => destruct H as [? H]
         | H : False |- _ => destruct H
         end.

Lemma in_if_nil {A} (x : A) (b : bool) (l : list A) :
  In x (if b then [] else l) <-> b = false /\ In x l.
Proof. destruct b; cbn; intuition discriminate. Qed.

(** Whatever the hook system answers, [setupMiddlewares] installs the
    sanity check, the urlencoded and JSON body parsers, the malformed-JSON
    handler and the CORS wrapper, in this order and next to each other;
    only the [alias] and [params] defaults can come before them, and only
    defaults of the later init steps after them. *)
Theorem setupMiddlewares_core_routes (h : hook) :
  exists pre post,
    routes (snd (setupMiddlewares h []))
    = pre ++ [RUse (JRef "router.formio.update.sanityCheck"); RUse (JRef "bodyParser.urlencoded");
              RUse (JRef "bodyParser.json"); RUseJsonError; RUseCors (alter h "cors" [])] ++ post
    /\ List.Forall (fun r => r = RUse (mw "alias") \/ r = RUse (mw "params")) pre
    /\ List.Forall (fun r => exists step, In step ["token"; "getTempToken"; "logout"; "current";
                                                   "access"; "config"; "perms"]
                                          /\ is_default step r = true) post.
Proof.
  rewrite setupMiddlewares_eq.
  destruct (current_error h); cbn [snd app];
    unfold middleware_trace, middleware_head, middleware_tail;
    rewrite !routes_app; cbn [routes]; rewrite !routes_if; cbn [routes];
  exists ((if truthy (invoke h "init" [JStr "alias"; formio]) then [] else [RUse (mw "alias")])
          ++ (if truthy (invoke h "init" [JStr "params"; formio]) then [] else [RUse (mw "params")])).
  all: (eexists; split;
   [ rewrite <- !app_assoc; cbn [app]; reflexivity
   | split;
     [ repeat first [apply Forall_app; split | apply forall_if_nil | apply List.Forall_nil
                    | apply List.Forall_cons; [now (left + right) | ]]
     | repeat (apply Forall_app; split); apply forall_if_nil;
       repeat first [apply List.Forall_nil | apply List.Forall_cons];
       first [ solve [exists "token"; split; [cbn; tauto | reflexivity]]
             | solve [exists "getTempToken"; split; [cbn; tauto | reflexivity]]
             | solve [exists "logout"; split; [cbn; tauto | reflexivity]]
             | solve [exists "current"; split; [cbn; tauto | reflexivity]]
             | solve [exists "access"; split; [cbn; tauto | reflexivity]]
             | solve [exists "config"; split; [cbn; tauto | reflexivity]]
             | solve [exists "perms"; split; [cbn; tauto | reflexivity]] ] ] ]).
Qed.

(** When [setupMiddlewares] completes and no host claims the [perms]
    step, the permission handler is the last route [setupMiddlewares]
    installs, and it is installed once. *)
Theorem setupMiddlewares_perms_last (h : hook) :
  fst (setupMiddlewares h []) = Ok tt ->
  truthy (invoke h "init" [JStr "perms"; formio]) = false ->
  exists rs, routes (snd (setupMiddlewares h [])) = rs ++ [RUse (mw "permissionHandler")]
             /\ ~ In (RUse (mw "permissionHandler")) rs.
Proof.
  rewrite setupMiddlewares_eq. intros Hok Hp.
  destruct (current_error h); [discriminate |].
  cbn [snd app]. unfold middleware_trace, middleware_head, middleware_tail.
  rewrite !routes_app. cbn [routes]. rewrite !routes_if. cbn [routes]. rewrite Hp.
  rewrite !app_assoc. eexists. split; [reflexivity |].
  intros Hin. rewrite !in_app_iff, !in_if_nil in Hin. cbn [In] in Hin.
  split_in Hin; discriminate.
Qed.

Lemma setupMiddlewares_perms_last_witness :
  exists rs, routes (snd (setupMiddlewares empty_hook [])) = rs ++ [RUse (mw "permissionHandler")]
             /\ ~ In (RUse (mw "permissionHandler")) rs.
Proof. apply setupMiddlewares_perms_last; reflexivity. Defined.

(** [hook.alter('currentUser', [router.formio.auth.currentUser])] is
    called exactly once when no host claims the [current] step, and never
    otherwise; it is called before [router.get('/current', ...)], so also
    when that throws. *)
Theorem setupMiddlewares_currentUser_alter (h : hook) :
  List.filter (is_alter_of "currentUser") (snd (setupMiddlewares h []))
  = if truthy (invoke h "init" [JStr "current"; formio]) then []
    else [EAlter "currentUser" [JArr [auth "currentUser"]]].
Proof.
  rewrite setupMiddlewares_eq.
  destruct (current_error h); cbn [snd app];
    unfold middleware_trace, middleware_head, middleware_tail;
    rewrite ?List.filter_app; cbn [List.filter is_alter_of String.eqb Ascii.eqb Bool.eqb andb];
    repeat match goal with
           | |- context [truthy (invoke h "init" [JStr ?s; formio])] =>
               destruct (truthy (invoke h "init" [JStr s; formio]))
           end; reflexivity.
Qed.

(* ------------------------------------------------------------------ *)
(** ** More of [router.init] *)

(** When [update.initialize()] rejects, [router.init] rejects with that
    same error before any route is installed or any init step asked. *)
Theorem router_init_db_failure (cfg : config) (h : hook) (env : boot_env) (e : exc) :
  db_initialize env = Throw e ->
  fst (run_init cfg h env) = Throw e
  /\ routes (snd (run_init cfg h env)) = []
  /\ (forall n args, ~ In (EInvoke n args) (snd (run_init cfg h env))).
Proof.
  intros Hdb. rewrite run_init_eq, Hdb. cbn. split; [reflexivity |].
  split; [reflexivity |]. intros n args. intuition discriminate.
Qed.

Lemma router_init_db_failure_witness :
  fst (run_init cfg_ok empty_hook env_db_down) = Throw (Rejected (JStr "connect ECONNREFUSED"))
  /\ routes (snd (run_init cfg_ok empty_hook env_db_down)) = [].
Proof.
  destruct (router_init_db_failure cfg_ok empty_hook env_db_down (Rejected (JStr "connect ECONNREFUSED")))
    as (H1 & H2 & _); [reflexivity |].
  split; assumption.
Defined.

(** An event of [router.init] that neither [setupMiddlewares] nor the
    first steps produce is not among them. *)
Ltac not_in_boot Hin :=
  rewrite ?in_app_iff in Hin; unfold boot_prefix in Hin; cbn [In] in Hin; split_in Hin;
  try discriminate;
  refine (not_in_middlewares _ _ (middleware_trace_events _) _ Hin); reflexivity.

(** On a successful boot [router.init] resolves to [router.formio]; the
    memory-leak middleware is the first route, then come all the routes
    [setupMiddlewares] installs, and after them the routes added once the
    database is connected, among them the three that [connectToMongoDB]
    adds itself. *)
Theorem router_init_success_routes (cfg : config) (h : hook) (env : boot_env) (db : jsval) :
  db_initialize env = Ok db -> fst (setupMiddlewares h []) = Ok tt ->
  positive_number (vmTimeout cfg) = true -> mongo_config_parse env = Ok tt ->
  mongo_connect env = Normal -> mongo_load env = Normal -> recaptcha_load env = Normal ->
  fst (run_init cfg h env) = Ok formio
  /\ exists post,
       routes (snd (run_init cfg h env)) = RUseMemLeak :: routes (snd (setupMiddlewares h [])) ++ post
       /\ In components_route post /\ In spec_route post /\ In form_spec_route post.
Proof.
  intros Hdb Hok Hpos Hparse Hconn Hload Hrec.
  rewrite run_init_eq, Hdb. rewrite setupMiddlewares_eq in *.
  destruct (current_error h); [discriminate |].
  rewrite Hpos, Hparse, Hconn, Hload, Hrec.
  cbn [fst snd]. split; [reflexivity |].
  rewrite !routes_app. cbn [routes boot_prefix app].
  eexists. split; [rewrite <- !app_assoc; reflexivity |]. cbn; tauto.
Qed.

Lemma router_init_success_routes_witness :
  fst (run_init cfg_ok empty_hook env_ok) = Ok formio
  /\ exists post,
       routes (snd (run_init cfg_ok empty_hook env_ok))
       = RUseMemLeak :: routes (snd (setupMiddlewares empty_hook [])) ++ post
       /\ In components_route post /\ In spec_route post /\ In form_spec_route post.
Proof. apply (router_init_success_routes cfg_ok empty_hook env_ok JNull); reflexivity. Defined.

(** When [mongoose.connect], or a module loaded after it, throws [err],
    the [catch] of [connectToMongoDB] rejects [router.init]: with a
    [TypeError] when [err] is [null] or [undefined] (reading its
    [message]), otherwise with [err.message] ([undefined] for a value
    without a [message] property).  The Evaluator Sandbox stays
    registered and the database is never reported ready. *)
Theorem router_init_mongo_failure (cfg : config) (h : hook) (env : boot_env) (db : jsval)
    (err : jsval) :
  db_initialize env = Ok db -> fst (setupMiddlewares h []) = Ok tt ->
  positive_number (vmTimeout cfg) = true -> mongo_config_parse env = Ok tt ->
  mongo_connect env = Threw err
  \/ (mongo_connect env = Normal /\ mongo_load env = Threw err)
  \/ (mongo_connect env = Normal /\ mongo_load env = Normal /\ recaptcha_load env = Threw err) ->
  ((err = JUndef \/ err = JNull) -> fst (run_init cfg h env) = Throw TypeError)
  /\ (err <> JUndef -> err <> JNull ->
      fst (run_init cfg h env) = Throw (Rejected (js_get err "message")))
  /\ In EEvalRegister (snd (run_init cfg h env))
  /\ In EMongoConnect (snd (run_init cfg h env))
  /\ ~ In EMongoReady (snd (run_init cfg h env)).
Proof.
  intros Hdb Hok Hpos Hparse Hcase.
  rewrite run_init_eq, Hdb. rewrite setupMiddlewares_eq in Hok.
  destruct (current_error h); [discriminate |].
  rewrite Hpos, Hparse.
  destruct Hcase as [Hc | [[Hc Hl] | (Hc & Hl & Hr)]]; rewrite ?Hc, ?Hl, ?Hr; cbn [fst snd];
    (split; [intros [-> | ->]; reflexivity |]);
    (split; [intros Hu Hn; unfold message_of; destruct err; congruence |]);
    rewrite !in_app_iff; cbn [In];
    (split; [tauto | split; [tauto | intros Hin; not_in_boot Hin]]).
Qed.

Lemma router_init_mongo_failure_witness :
  fst (run_init cfg_ok empty_hook
         {| db_initialize := Ok JNull; mongo_config_parse := Ok tt;
            mongo_connect := Threw (JObj [("name", JStr "MongoServerError");
                                          ("message", JStr "Authentication failed")]);
            mongo_load := Normal; recaptcha_load := Normal |})
  = Throw (Rejected (JStr "Authentication failed")).
Proof.
  apply (router_init_mongo_failure cfg_ok empty_hook _ JNull
           (JObj [("name", JStr "MongoServerError"); ("message", JStr "Authentication failed")]));
    try reflexivity; [left; reflexivity | discriminate | discriminate].
Defined.

(** When [JSON.parse(config.mongoConfig)] throws, and [setupMiddlewares]
    completed, [router.init] rejects with that exception itself (the
    [catch] of [connectToMongoDB] is not around it), after the Evaluator
    Sandbox was registered and before any connection attempt. *)
Theorem router_init_mongo_config_failure (cfg : config) (h : hook) (env : boot_env) (db : jsval)
    (e : exc) :
  db_initialize env = Ok db -> fst (setupMiddlewares h []) = Ok tt ->
  positive_number (vmTimeout cfg) = true ->
  mongo_config_parse env = Throw e ->
  fst (run_init cfg h env) = Throw e
  /\ In EEvalRegister (snd (run_init cfg h env))
  /\ ~ In EMongoConnect (snd (run_init cfg h env)).
Proof.
  intros Hdb Hok Hpos Hparse.
  rewrite run_init_eq, Hdb. rewrite setupMiddlewares_eq in Hok.
  destruct (current_error h); [discriminate |].
  rewrite Hpos, Hparse. cbn [fst snd]. split; [reflexivity |].
  rewrite !in_app_iff. cbn [In]. split; [tauto |].
  intros Hin. not_in_boot Hin.
Qed.

Lemma router_init_mongo_config_failure_witness :
  fst (run_init cfg_ok empty_hook
         {| db_initialize := Ok JNull; mongo_config_parse := Throw TypeError; mongo_connect := Normal;
            mongo_load := Normal; recaptcha_load := Normal |})
  = Throw TypeError.
Proof. apply (router_init_mongo_config_failure cfg_ok empty_hook _ JNull TypeError); reflexivity. Defined.

(* ------------------------------------------------------------------ *)
(** ** The connection settings of [setupMongoDBConnection] *)

Lemma obj_get_cons (k0 : string) (v0 : jsval) (fs : list (string * jsval)) (k : string) :
  obj_get ((k0, v0) :: fs) k = if String.eqb k0 k then v0 else obj_get fs k.
Proof. unfold obj_get, js_get. cbn [find fst]. now destruct (String.eqb k0 k). Qed.

Lemma obj_get_set (fs : list (string * jsval)) (k : string) (v : jsval) (k' : string) :
  obj_get (obj_set fs k v) k' = if String.eqb k k' then v else obj_get fs k'.
Proof.
  induction fs as [| [k0 v0] fs IH]; cbn [obj_set].
  - rewrite obj_get_cons. reflexivity.
  - destruct (String.eqb_spec k0 k) as [-> | Hne].
    + rewrite !obj_get_cons. now destruct (String.eqb k k').
    + rewrite !obj_get_cons, IH.
      destruct (String.eqb_spec k0 k') as [-> | Hne']; [| reflexivity].
      apply String.eqb_neq in Hne. now rewrite String.eqb_sym, Hne.
Qed.


Lemma obj_has_in (fs : list (string * jsval)) (k : string) :
  obj_has fs k = true <-> In k (map fst fs).
Proof.
  unfold obj_has. rewrite existsb_exists, in_map_iff. split.
  - intros (kv & Hin & Heq). apply String.eqb_eq in Heq. eauto.
  - intros (kv & Heq & Hin). exists kv. split; [exact Hin | now apply String.eqb_eq].
Qed.

Lemma obj_spread_notin (a l : list (string * jsval)) (k : string) :
  ~ In k (map fst l) -> obj_get (obj_spread a l) k = obj_get a k.
Proof.
  unfold obj_spread. revert a. induction l as [| [k0 v0] l IH]; intros a Hk; [reflexivity |].
  cbn [fold_left fst snd]. rewrite IH by (intros H; apply Hk; now right).
  rewrite obj_get_set. destruct (String.eqb_spec k0 k) as [-> | _]; [| reflexivity].
  exfalso. apply Hk. now left.
Qed.

Lemma obj_spread_in (a l : list (string * jsval)) (k : string) :
  List.NoDup (map fst l) -> obj_has l k = true -> obj_get (obj_spread a l) k = obj_get l k.
Proof.
  revert a. induction l as [| [k0 v0] l IH]; intros a Hnd Hk; [discriminate |].
  cbn [map fst] in Hnd. apply List.NoDup_cons_iff in Hnd as [Hk0 Hnd].
  rewrite obj_get_cons. unfold obj_spread. cbn [fold_left fst snd]. fold (obj_spread (obj_set a k0 v0) l).
  destruct (String.eqb_spec k0 k) as [-> | Hne].
  - rewrite obj_spread_notin by exact Hk0. rewrite obj_get_set. now rewrite String.eqb_refl.
  - apply IH; [exact Hnd |]. cbn [obj_has existsb fst] in Hk.
    apply String.eqb_neq in Hne. now rewrite Hne in Hk.
Qed.

Lemma js_to_string_hosts (show_number : Q -> string) (hosts : list string) :
  js_to_string show_number (JArr (map JStr hosts)) = String.concat "," hosts.
Proof.
  cbn [js_to_string]. f_equal. rewrite map_map.
  transitivity (map (fun x => x) hosts); [now apply map_ext | apply map_id].
Qed.

(** When [config.mongoConfig] is falsy, [JSON.parse] is never called: the
    connection settings do not depend on it. *)
Theorem mongo_options_no_parse json_parse1 json_parse2 show_number (ms : mongo_settings) :
  truthy (mongoConfig ms) = false ->
  mongo_connection_options json_parse1 show_number ms
  = mongo_connection_options json_parse2 show_number ms.
Proof. intros H. unfold mongo_connection_options. now rewrite H. Qed.

Lemma mongo_options_no_parse_witness :
  mongo_connection_options (fun _ => Throw TypeError) show_integer
    (mongo_only (JStr "mongodb://localhost:27017/formio"))
  = mongo_connection_options (fun _ => Ok (JObj [])) show_integer
    (mongo_only (JStr "mongodb://localhost:27017/formio")).
Proof. apply mongo_options_no_parse. reflexivity. Defined.



(** With [mongoSA] or [mongoCA] truthy (and no [mongoSSL]), the options
    ask for TLS with [tlsCAFile] set to [mongoSA] when it is truthy and to
    [mongoCA] otherwise. *)
Theorem mongo_options_tls json_parse show_number (ms : mongo_settings) url c :
  truthy (mongoSSL ms) = false -> truthy (mongoSA ms) || truthy (mongoCA ms) = true ->
  mongo_connection_options json_parse show_number ms = Ok (url, c) ->
  obj_get c "tls" = JBool true
  /\ obj_get c "tlsCAFile" = if truthy (mongoSA ms) then mongoSA ms else mongoCA ms.
Proof.
  intros Hssl Htls H. unfold mongo_connection_options in H.
  destruct (if truthy (mongoConfig ms) then _ else _) as [parsed | e]; [| discriminate].
  destruct (mongo_config_object parsed) as [c0 | e]; [| discriminate].
  rewrite Hssl, Htls in H. injection H as _ <-.
  rewrite !obj_get_set. cbn. split; reflexivity.
Qed.

Lemma mongo_options_tls_witness :
  obj_get [("connectTimeoutMS", JNum 300000); ("socketTimeoutMS", JNum 300000);
           ("tls", JBool true); ("tlsCAFile", JStr "/etc/ssl/ca.pem")] "tls" = JBool true
  /\ obj_get [("connectTimeoutMS", JNum 300000); ("socketTimeoutMS", JNum 300000);
              ("tls", JBool true); ("tlsCAFile", JStr "/etc/ssl/ca.pem")] "tlsCAFile"
     = if truthy JUndef then JUndef else JStr "/etc/ssl/ca.pem".
Proof.
  apply (mongo_options_tls (fun _ => Ok (JObj [])) show_integer
           {| mongo := JStr "mongodb://db/formio"; mongoConfig := JUndef; mongoSA := JUndef;
              mongoCA := JStr "/etc/ssl/ca.pem"; mongoSSL := JUndef |} (JStr "mongodb://db/formio"));
    reflexivity.
Defined.

(** A [mongoSSL] object is spread last: each of its properties overrides
    what the defaults, [mongoConfig] or the TLS settings gave. *)
Theorem mongo_options_ssl_override json_parse show_number (ms : mongo_settings)
    (ssl : list (string * jsval)) url c (k : string) :
  mongoSSL ms = JObj ssl -> List.NoDup (map fst ssl) -> obj_has ssl k = true ->
  mongo_connection_options json_parse show_number ms = Ok (url, c) ->
  obj_get c k = obj_get ssl k.
Proof.
  intros Hssl Hnd Hk H. unfold mongo_connection_options in H.
  destruct (if truthy (mongoConfig ms) then _ else _) as [parsed | e]; [| discriminate].
  destruct (mongo_config_object parsed) as [c0 | e]; [| discriminate].
  rewrite Hssl in H. cbn [truthy own_props] in H. injection H as _ <-.
  now apply obj_spread_in.
Qed.

Lemma mongo_options_ssl_override_witness :
  obj_get [("connectTimeoutMS", JNum 300000); ("socketTimeoutMS", JNum 300000);
           ("tls", JBool false); ("tlsCAFile", JStr "/etc/ssl/sa.pem")] "tls"
  = obj_get [("tls", JBool false)] "tls".
Proof.
  apply (mongo_options_ssl_override (fun _ => Ok (JObj [])) show_integer
           {| mongo := JStr "mongodb://db/formio"; mongoConfig := JUndef;
              mongoSA := JStr "/etc/ssl/sa.pem"; mongoCA := JUndef;
              mongoSSL := JObj [("tls", JBool false)] |} [("tls", JBool false)]
           (JStr "mongodb://db/formio")); [reflexivity | | reflexivity | ].
  - repeat constructor. intros [].
  - vm_compute. reflexivity.
Defined.

(** A truthy [mongoConfig] goes through [JSON.parse]: its exception is
    passed on unchanged, and a JSON text for [null] or for a number,
    string or boolean fails with a [TypeError] (the property tests and
    assignments on it, in strict mode). *)
Theorem mongo_options_bad_config json_parse show_number (ms : mongo_settings) :
  truthy (mongoConfig ms) = true ->
  (forall e, json_parse (mongoConfig ms) = Throw e ->
             mongo_connection_options json_parse show_number ms = Throw e)
  /\ (forall v, json_parse (mongoConfig ms) = Ok v ->
                match v with JObj _ | JArr _ | JRef _ => False | _ => True end ->
                mongo_connection_options json_parse show_number ms = Throw TypeError).
Proof.
  intros Hmc. unfold mongo_connection_options. rewrite Hmc. split.
  - intros e ->. reflexivity.
  - intros v -> Hv. destruct v; cbn; solve [reflexivity | contradiction].
Qed.

Lemma mongo_options_bad_config_witness :
  mongo_connection_options (fun _ => Ok JNull) show_integer
    {| mongo := JStr "mongodb://db/formio"; mongoConfig := JStr "null"; mongoSA := JUndef;
       mongoCA := JUndef; mongoSSL := JUndef |} = Throw TypeError.
Proof.
  destruct (mongo_options_bad_config (fun _ => Ok JNull) show_integer
           {| mongo := JStr "mongodb://db/formio"; mongoConfig := JStr "null"; mongoSA := JUndef;
              mongoCA := JUndef; mongoSSL := JUndef |}) as [_ Hprim]; [reflexivity |].
  apply (Hprim JNull); [reflexivity | exact I].
Defined.

(** An array of host strings in [config.mongo] becomes one URL, the hosts
    joined with commas. *)
Theorem mongo_options_url_join json_parse show_number (ms : mongo_settings) (hosts : list string)
    url c :
  mongo ms = JArr (map JStr hosts) ->
  mongo_connection_options json_parse show_number ms = Ok (url, c) ->
  url = JStr (String.concat "," hosts).
Proof.
  intros Hm H. unfold mongo_connection_options in H.
  destruct (if truthy (mongoConfig ms) then _ else _) as [parsed | e]; [| discriminate].
  destruct (mongo_config_object parsed) as [c0 | e]; [| discriminate].
  rewrite Hm in H. cbn [is_array] in H. injection H as <- _.
  rewrite <- (js_to_string_hosts show_number hosts). reflexivity.
Qed.

Lemma mongo_options_url_join_witness :
  JStr "db1:27017,db2:27017" = JStr (String.concat "," ["db1:27017"; "db2:27017"]).
Proof.
  apply (mongo_options_url_join (fun _ => Ok (JObj [])) show_integer
           (mongo_only (JArr [JStr "db1:27017"; JStr "db2:27017"])) ["db1:27017"; "db2:27017"]
           (JStr "db1:27017,db2:27017")
           [("connectTimeoutMS", JNum 300000); ("socketTimeoutMS", JNum 300000)]);
    reflexivity.
Defined.
